(** * PM slave SRAM: state tables, transition table and FSM handler

    Shallow embedding of [lib/sw_apps/zynqmp_pmufw/src/pm_sram.c]: the two
    state-capability tables, the transition table, [PmSramFsmHandler],
    the two FSM descriptors and the L2 power-down wrapper [PmL2PwrDn].

    Integers are modelled as [Z] with the C conversions written out.  The
    memory-mapped registers are a total map from addresses to 32-bit values.
    Firmware functions run in a small monad that threads the registers and
    collects, in call order, the log of the calls the function makes. *)

From Stdlib Require Import ZArith List Bool Lia Btauto.
Import ListNotations.
Local Open Scope Z_scope.
Set Warnings "-register-all".

(** ** Machine integers *)

(** Conversion to [u32] (wrap-around modulo 2^32). *)
Definition to_u32 (x : Z) : Z := x mod 2 ^ 32.

(** Conversion of a 32-bit pattern to [int] (two's complement). *)
Definition to_int (x : Z) : Z :=
  let r := x mod 2 ^ 32 in
  if r <? 2 ^ 31 then r else r - 2 ^ 32.

(** [~x] on a [u32] operand. *)
Definition not32 (x : Z) : Z := to_u32 (Z.lnot x).

(** [PmStateId] is an 8-bit unsigned identifier. *)
Definition PmStateId := Z.

(** ** Registers, call log and the firmware monad *)

Definition Regs := Z -> Z.

Definition Xil_In32 (hw : Regs) (addr : Z) : Z := hw addr.

Definition Xil_Out32 (hw : Regs) (addr val : Z) : Regs :=
  fun a => if a =? addr then val else hw a.

(** Functions reached through a pointer or living in the PMU ROM. *)
Inductive Callee : Type :=
| sram_PwrDn
| sram_PwrUp
| Xpbr_PwrDnL2Bank0.

(** One entry of the call log.  A call to a [Callee] carries the log of
    what the callee did in turn. *)
Inductive Event : Type :=
| EvRMW32 (addr mask val : Z)
| EvCall (f : Callee) (inner : list Event)
| EvUpdateCurrState (s : PmStateId)
| EvPmDbg (s : PmStateId).

Definition M (A : Type) : Type := Regs -> A * Regs * list Event.

Definition ret {A} (a : A) : M A := fun hw => (a, hw, []).

Definition bind {A B} (m : M A) (k : A -> M B) : M B :=
  fun hw =>
    let '(a, hw1, e1) := m hw in
    let '(b, hw2, e2) := k a hw1 in
    (b, hw2, e1 ++ e2).

Definition emit (e : Event) : M unit := fun hw => (tt, hw, [e]).

Declare Scope fw_scope.
Delimit Scope fw_scope with fw.
Notation "x <- m ;; k" := (bind m (fun x => k))
  (at level 61, m at next level, right associativity) : fw_scope.
Notation "m ;; k" := (bind m (fun _ => k))
  (at level 61, right associativity) : fw_scope.
Local Open Scope fw_scope.

(** Projections of a run. *)
Definition result {A} (r : A * Regs * list Event) : A := fst (fst r).
Definition regs_after {A} (r : A * Regs * list Event) : Regs := snd (fst r).
Definition calls {A} (r : A * Regs * list Event) : list Event := snd r.

(** A call through a function pointer or into the ROM: the callee runs on
    the current registers and the call is logged with the callee's own log
    inside. *)
Definition call {A} (f : Callee) (body : M A) : M A :=
  fun hw => let '(a, hw1, inner) := body hw in (a, hw1, [EvCall f inner]).

(** Effect of a masked write on one register value:
    [(old & ~mask) | (mask & val)]. *)
Definition rmw_value (old mask val : Z) : Z :=
  Z.lor (Z.land old (not32 mask)) (Z.land mask val).

Definition rmw32 (hw : Regs) (addr mask val : Z) : Regs :=
  Xil_Out32 hw addr (rmw_value (Xil_In32 hw addr) mask val).

(** Modelled from the spec: [XPfw_RMW32] is declared in a header that is
    not part of this file; the spec describes it as "a register-style
    read-modify-write keyed by an address and bit-mask".  The register is
    read, the bits under [mask] are replaced by those of [val], and the
    result is written back. *)
Definition XPfw_RMW32 (addr mask val : Z) : M unit :=
  fun hw => (tt, rmw32 hw addr mask val, [EvRMW32 addr mask val]).

(** [PmDbg] is a diagnostic print; it touches no register. *)
Definition PmDbg (s : PmStateId) : M unit := emit (EvPmDbg s).

(** ** Constants that come from headers *)

(** Status codes of [xstatus.h] and [pm_defs.h]. *)
Class XStatus : Type := {
  XST_SUCCESS : Z;
  XST_NO_FEATURE : Z;
  XST_PM_INTERNAL : Z
}.

(** Capability bits of [pm_defs.h] / [pm_common.h], and the default
    transition latency. *)
Class PmCaps : Type := {
  PM_CAP_ACCESS : Z;
  PM_CAP_CONTEXT : Z;
  PM_CAP_POWER : Z;
  PM_DEFAULT_LATENCY : Z
}.

(** Register addresses, masks and PMU-ROM entry points used by the bank
    instances modelled below. *)
Class PmuRom : Type := {
  PMU_GLOBAL_RAM_RET_CNTRL : Z;
  PMU_GLOBAL_RAM_RET_CNTRL_L2_BANK0_MASK : Z;
  PMU_GLOBAL_RAM_RET_CNTRL_TCM0A_MASK : Z;
  CRF_APB_RST_FPD_APU : Z;
  CRF_APB_RST_FPD_APU_APU_L2_RESET_MASK : Z;
  XpbrPwrDnL2Bank0Handler : M Z;
  XpbrPwrUpL2Bank0Handler : M Z;
  XpbrPwrDnTcm0AHandler : M Z;
  XpbrPwrUpTcm0AHandler : M Z
}.

(** ** Power states of SRAM *)

Definition PM_SRAM_STATE_OFF : PmStateId := 0.
Definition PM_SRAM_STATE_RET : PmStateId := 1.
Definition PM_SRAM_STATE_ON : PmStateId := 2.
Definition PM_SRAM_STATE_MAX : Z := 3.

(** ** Data structures *)

Inductive NodeId : Type := NODE_L2 | NODE_TCM_0_A.

(** The two FSM descriptors a bank can point to. *)
Inductive FsmRef : Type := slaveSramFsm_ref | slaveTcmFsm_ref.

Record PmStateTran : Type := {
  fromState : PmStateId;
  toState : PmStateId;
  latency : Z
}.

(** The fields of [PmNode] and [PmSlave] that this file initialises and
    that the FSM code reads or writes. *)
Record PmNode : Type := {
  nodeId : NodeId;
  currState : PmStateId
}.

Record PmSlave : Type := {
  node : PmNode;
  slvFsm : FsmRef
}.

Record PmSlaveSram : Type := {
  slv : PmSlave;
  PwrDn : M Z;
  PwrUp : M Z;
  retCtrlAddr : Z;
  retCtrlMask : Z
}.

Record PmSlaveFsm : Type := {
  states : list Z;
  statesCnt : Z;
  trans : list PmStateTran;
  transCnt : Z;
  enterState : PmSlaveSram -> PmStateId -> M (Z * PmSlaveSram)
}.

Definition sram_currState (sram : PmSlaveSram) : PmStateId :=
  currState (node (slv sram)).

Definition set_currState (sram : PmSlaveSram) (s : PmStateId) : PmSlaveSram :=
  {| slv := {| node := {| nodeId := nodeId (node (slv sram));
                          currState := s |};
               slvFsm := slvFsm (slv sram) |};
     PwrDn := PwrDn sram;
     PwrUp := PwrUp sram;
     retCtrlAddr := retCtrlAddr sram;
     retCtrlMask := retCtrlMask sram |}.

(** Modelled from the spec: [PmNodeUpdateCurrState] is defined in another
    file of the firmware; the spec describes it as committing
    "bank.currentState = targetState as a single atomic update". *)
Definition PmNodeUpdateCurrState (sram : PmSlaveSram) (newState : PmStateId)
  : M PmSlaveSram :=
  emit (EvUpdateCurrState newState) ;; ret (set_currState sram newState).

(** Entry [s] of a state table ([0] past its end, which the code never
    reads). *)
Definition state_caps (tbl : list Z) (s : PmStateId) : Z :=
  nth (Z.to_nat s) tbl 0.

(** Capability-set inclusion on bit masks. *)
Definition caps_subset (a b : Z) : Prop := Z.land a b = a.

(** A direct edge of a transition table. *)
Definition has_edge (tbl : list PmStateTran) (from to : PmStateId) : bool :=
  existsb (fun t => (fromState t =? from) && (toState t =? to)) tbl.

Section Firmware.
Context {xst : XStatus} {caps : PmCaps} {rom : PmuRom}.

(** *** Sram states *)
Definition pmSramStates : list Z :=
  [ 0;
    Z.lor PM_CAP_CONTEXT PM_CAP_POWER;
    Z.lor (Z.lor PM_CAP_ACCESS PM_CAP_CONTEXT) PM_CAP_POWER ].

(** *** TCMs in retention do not require power parent to be ON *)
Definition pmTcmStates : list Z :=
  [ 0;
    PM_CAP_CONTEXT;
    Z.lor (Z.lor PM_CAP_ACCESS PM_CAP_CONTEXT) PM_CAP_POWER ].

(** *** Sram transition table *)
Definition pmSramTransitions : list PmStateTran :=
  [ {| fromState := PM_SRAM_STATE_ON; toState := PM_SRAM_STATE_RET;
       latency := PM_DEFAULT_LATENCY |};
    {| fromState := PM_SRAM_STATE_RET; toState := PM_SRAM_STATE_ON;
       latency := PM_DEFAULT_LATENCY |};
    {| fromState := PM_SRAM_STATE_ON; toState := PM_SRAM_STATE_OFF;
       latency := PM_DEFAULT_LATENCY |};
    {| fromState := PM_SRAM_STATE_OFF; toState := PM_SRAM_STATE_ON;
       latency := PM_DEFAULT_LATENCY |} ].

(** *** PmSramFsmHandler: Sram FSM handler, performs transition actions.
    [slave->node.derived] points back to the enclosing [PmSlaveSram] in
    every instance, so the handler is given that record.  The power
    handlers return [u32] and [status] is an [int].  The handler returns
    the status together with the slave as the call leaves it. *)
Definition PmSramFsmHandler (sram : PmSlaveSram) (nextState : PmStateId)
  : M (Z * PmSlaveSram) :=
  status <-
    (if sram_currState sram =? PM_SRAM_STATE_ON then
       if PM_SRAM_STATE_RET =? nextState then
         (* ON -> RET *)
         XPfw_RMW32 (retCtrlAddr sram) (retCtrlMask sram)
                    (retCtrlMask sram) ;;
         r <- call sram_PwrDn (PwrDn sram) ;;
         ret (to_int r)
       else if PM_SRAM_STATE_OFF =? nextState then
         (* ON -> OFF *)
         XPfw_RMW32 (retCtrlAddr sram) (retCtrlMask sram)
                    (not32 (retCtrlMask sram)) ;;
         r <- call sram_PwrDn (PwrDn sram) ;;
         ret (to_int r)
       else
         ret XST_NO_FEATURE
     else if sram_currState sram =? PM_SRAM_STATE_RET then
       if PM_SRAM_STATE_ON =? nextState then
         (* RET -> ON *)
         r <- call sram_PwrUp (PwrUp sram) ;;
         ret (to_int r)
       else if PM_SRAM_STATE_OFF =? nextState then
         (* RET -> OFF *)
         XPfw_RMW32 (retCtrlAddr sram) (retCtrlMask sram)
                    (not32 (retCtrlMask sram)) ;;
         r <- call sram_PwrDn (PwrDn sram) ;;
         ret (to_int r)
       else
         ret XST_NO_FEATURE
     else if sram_currState sram =? PM_SRAM_STATE_OFF then
       if PM_SRAM_STATE_ON =? nextState then
         (* OFF -> ON *)
         r <- call sram_PwrUp (PwrUp sram) ;;
         ret (to_int r)
       else
         ret XST_NO_FEATURE
     else
       PmDbg (sram_currState sram) ;;
       ret XST_PM_INTERNAL) ;;
  if XST_SUCCESS =? status then
    sram' <- PmNodeUpdateCurrState sram nextState ;;
    ret (status, sram')
  else
    ret (status, sram).

(** *** Sram FSM *)
Definition slaveSramFsm : PmSlaveFsm :=
  {| states := pmSramStates;
     statesCnt := PM_SRAM_STATE_MAX;
     trans := pmSramTransitions;
     transCnt := Z.of_nat (length pmSramTransitions);
     enterState := PmSramFsmHandler |}.

(** *** TCM FSM *)
Definition slaveTcmFsm : PmSlaveFsm :=
  {| states := pmTcmStates;
     statesCnt := PM_SRAM_STATE_MAX;
     trans := pmSramTransitions;
     transCnt := Z.of_nat (length pmSramTransitions);
     enterState := PmSramFsmHandler |}.

Definition fsm_of (r : FsmRef) : PmSlaveFsm :=
  match r with
  | slaveSramFsm_ref => slaveSramFsm
  | slaveTcmFsm_ref => slaveTcmFsm
  end.

(** *** PmL2PwrDn: handler for powering down L2$.
    [status] is an [int]; the function returns [u32]. *)
Definition PmL2PwrDn : M Z :=
  r <- call Xpbr_PwrDnL2Bank0 XpbrPwrDnL2Bank0Handler ;;
  let status := to_int r in
  XPfw_RMW32 CRF_APB_RST_FPD_APU
             CRF_APB_RST_FPD_APU_APU_L2_RESET_MASK
             CRF_APB_RST_FPD_APU_APU_L2_RESET_MASK ;;
  ret (to_u32 status).

(** *** Bank instances (one of each class) *)
Definition pmSlaveL2_g : PmSlaveSram :=
  {| slv := {| node := {| nodeId := NODE_L2;
                          currState := PM_SRAM_STATE_ON |};
               slvFsm := slaveSramFsm_ref |};
     PwrDn := PmL2PwrDn;
     PwrUp := XpbrPwrUpL2Bank0Handler;
     retCtrlAddr := PMU_GLOBAL_RAM_RET_CNTRL;
     retCtrlMask := PMU_GLOBAL_RAM_RET_CNTRL_L2_BANK0_MASK |}.

Definition pmSlaveTcm0A_g : PmSlaveSram :=
  {| slv := {| node := {| nodeId := NODE_TCM_0_A;
                          currState := PM_SRAM_STATE_ON |};
               slvFsm := slaveTcmFsm_ref |};
     PwrDn := XpbrPwrDnTcm0AHandler;
     PwrUp := XpbrPwrUpTcm0AHandler;
     retCtrlAddr := PMU_GLOBAL_RAM_RET_CNTRL;
     retCtrlMask := PMU_GLOBAL_RAM_RET_CNTRL_TCM0A_MASK |}.

End Firmware.

(** ** A concrete platform

    One instance of the header constants and of the ROM, used to run the
    definitions.  The status codes and capability bits are pairwise
    distinct, as the theorems below require where it matters.  In this
    instance the L2 power-down in ROM fails (status 1) and raises a flag in
    a scratch register; every other ROM entry succeeds. *)

Definition sample_xst : XStatus :=
  {| XST_SUCCESS := 0; XST_NO_FEATURE := 19; XST_PM_INTERNAL := 2000 |}.

Definition sample_caps : PmCaps :=
  {| PM_CAP_ACCESS := 1; PM_CAP_CONTEXT := 2; PM_CAP_POWER := 8;
     PM_DEFAULT_LATENCY := 1000 |}.

Definition rom_succeeds : M Z := fun hw => (0, hw, []).

Definition rom_fails : M Z := fun hw => (1, Xil_Out32 hw 64 1, []).

Definition sample_rom : PmuRom :=
  {| PMU_GLOBAL_RAM_RET_CNTRL := 256;
     PMU_GLOBAL_RAM_RET_CNTRL_L2_BANK0_MASK := 1;
     PMU_GLOBAL_RAM_RET_CNTRL_TCM0A_MASK := 16;
     CRF_APB_RST_FPD_APU := 260;
     CRF_APB_RST_FPD_APU_APU_L2_RESET_MASK := 256;
     XpbrPwrDnL2Bank0Handler := rom_fails;
     XpbrPwrUpL2Bank0Handler := rom_succeeds;
     XpbrPwrDnTcm0AHandler := rom_succeeds;
     XpbrPwrUpTcm0AHandler := rom_succeeds |}.

(** Registers before a request: all zero, except the retention control
    register, which holds [0xF0] (retention bit of TCM0A set, that of L2
    clear). *)
Definition sample_regs : Regs := fun a => if a =? 256 then 240 else 0.

(** The two bank instances on this platform, both in state ON. *)
Definition sample_l2 : PmSlaveSram := @pmSlaveL2_g sample_rom.
Definition sample_tcm : PmSlaveSram := @pmSlaveTcm0A_g sample_rom.

(** The same banks with other recorded states; [7] is outside the
    configured state set. *)
Definition sample_tcm_ret : PmSlaveSram :=
  set_currState sample_tcm PM_SRAM_STATE_RET.
Definition sample_tcm_off : PmSlaveSram :=
  set_currState sample_tcm PM_SRAM_STATE_OFF.
Definition sample_tcm_unknown : PmSlaveSram := set_currState sample_tcm 7.

(** ** Vocabulary of the properties *)

(** The configured state set. *)
Definition configured (s : PmStateId) : Prop :=
  s = PM_SRAM_STATE_OFF \/ s = PM_SRAM_STATE_RET \/ s = PM_SRAM_STATE_ON.

Inductive Direction : Type := Downward | Upward.

(** The transitions for which the handler has a branch, with their
    direction. *)
Definition handled (cur next : PmStateId) : option Direction :=
  if cur =? PM_SRAM_STATE_ON then
    if PM_SRAM_STATE_RET =? next then Some Downward
    else if PM_SRAM_STATE_OFF =? next then Some Downward
    else None
  else if cur =? PM_SRAM_STATE_RET then
    if PM_SRAM_STATE_ON =? next then Some Upward
    else if PM_SRAM_STATE_OFF =? next then Some Downward
    else None
  else if cur =? PM_SRAM_STATE_OFF then
    if PM_SRAM_STATE_ON =? next then Some Upward else None
  else None.

(** The five transitions named by the comments of the handler, with their
    direction in the order OFF, RETENTION, ON. *)
Inductive transition : PmStateId -> PmStateId -> Direction -> Prop :=
| on_to_ret : transition PM_SRAM_STATE_ON PM_SRAM_STATE_RET Downward
| on_to_off : transition PM_SRAM_STATE_ON PM_SRAM_STATE_OFF Downward
| ret_to_off : transition PM_SRAM_STATE_RET PM_SRAM_STATE_OFF Downward
| ret_to_on : transition PM_SRAM_STATE_RET PM_SRAM_STATE_ON Upward
| off_to_on : transition PM_SRAM_STATE_OFF PM_SRAM_STATE_ON Upward.

(** Value written under the retention mask for a target state: the mask
    itself for RETENTION, its complement otherwise. *)
Definition ret_ctrl_value (mask : Z) (next : PmStateId) : Z :=
  if PM_SRAM_STATE_RET =? next then mask else not32 mask.

(** Along an edge, capabilities only grow when the edge goes up in the
    order OFF, RETENTION, ON and only shrink when it goes down. *)
Definition edge_monotone (tbl : list Z) (t : PmStateTran) : Prop :=
  (fromState t < toState t ->
     caps_subset (state_caps tbl (fromState t)) (state_caps tbl (toState t)))
  /\
  (toState t < fromState t ->
     caps_subset (state_caps tbl (toState t)) (state_caps tbl (fromState t))).

(** A state table is monotone: each state's capabilities are included in
    those of the next state, and every edge of the transition table is
    monotone. *)
Definition caps_monotone {caps : PmCaps} (tbl : list Z) : Prop :=
  caps_subset (state_caps tbl PM_SRAM_STATE_OFF)
              (state_caps tbl PM_SRAM_STATE_RET) /\
  caps_subset (state_caps tbl PM_SRAM_STATE_RET)
              (state_caps tbl PM_SRAM_STATE_ON) /\
  Forall (edge_monotone tbl) pmSramTransitions.

(** The registers as the retention-control write for target [next] leaves
    them, and the run of the bank's power-down action on those registers. *)
Definition retention_written (sram : PmSlaveSram) (next : PmStateId)
    (hw : Regs) : Regs :=
  rmw32 hw (retCtrlAddr sram) (retCtrlMask sram)
        (ret_ctrl_value (retCtrlMask sram) next).

Definition power_down_run (sram : PmSlaveSram) (next : PmStateId)
    (hw : Regs) : Z * Regs * list Event :=
  PwrDn sram (retention_written sram next hw).

(** What the tail of the handler yields for a given status: the value
    returned and the log entries appended. *)
Definition commit {xst : XStatus} (status : Z) (sram : PmSlaveSram)
    (next : PmStateId) : (Z * PmSlaveSram) * list Event :=
  if XST_SUCCESS =? status
  then ((status, set_currState sram next), [EvUpdateCurrState next])
  else ((status, sram), []).

(** Log entries that are a power action or a retention-control write. *)
Definition is_hw_action (e : Event) : bool :=
  match e with
  | EvRMW32 _ _ _ => true
  | EvCall _ _ => true
  | _ => false
  end.

(** The power actions and retention-control writes of a run, in call
    order. *)
Definition hw_actions {A} (r : A * Regs * list Event) : list Event :=
  filter is_hw_action (calls r).

(** ** Power consumptions for SRAM defined by its states *)

Definition DEFAULT_SRAM_POWER_ON : Z := 100.
Definition DEFAULT_SRAM_POWER_RETENTION : Z := 50.
Definition DEFAULT_SRAM_POWER_OFF : Z := 0.

Definition PmSramPowers : list Z :=
  [ DEFAULT_SRAM_POWER_OFF;
    DEFAULT_SRAM_POWER_RETENTION;
    DEFAULT_SRAM_POWER_ON ].

(** Entry [s] of the power table. *)
Definition state_power (s : PmStateId) : Z := nth (Z.to_nat s) PmSramPowers 0.

(** ** The bank instances as the file initialises them

    The nine [PmSlaveSram] objects differ only in symbols that come from
    headers.  A symbol that exists once per memory is written as the memory
    it is named after: [NODE_OCM_BANK_0], [XpbrPwrDnOcmBank0Handler],
    [PMU_GLOBAL_RAM_RET_CNTRL_OCM_BANK0_MASK], [PM_MASTER_APU_SLAVE_OCM0]
    and [&pmSlaveOcm0_g] all carry [Ocm0]. *)

Inductive Memory : Type :=
| L2 | Ocm0 | Ocm1 | Ocm2 | Ocm3 | Tcm0A | Tcm0B | Tcm1A | Tcm1B.


(** [pmPowerDomainFpd_g] and [pmPowerIslandRpu_g]. *)
Inductive PowerParent : Type := PowerDomainFpd | PowerIslandRpu.

(** The requirement arrays [pmApuReq_g] and [pmRpu0Req_g]. *)
Inductive ReqArray : Type := ApuReq | Rpu0Req.

Definition ReqArray_eqb (a b : ReqArray) : bool :=
  match a, b with
  | ApuReq, ApuReq | Rpu0Req, Rpu0Req => true
  | _, _ => false
  end.

(** A power handler by name: the wrapper defined in this file, or the ROM
    handler of a memory. *)
Inductive PwrFn : Type :=
| Fn_PmL2PwrDn
| Fn_XpbrPwrDn (m : Memory)
| Fn_XpbrPwrUp (m : Memory).

(** [0U] or [PM_SLAVE_FLAG_IS_SHAREABLE]. *)
Inductive SlaveFlags : Type := NoFlags | IsShareable.

(** [PM_TYPE_SRAM], [MAX_LATENCY] and [PMU_GLOBAL_RAM_RET_CNTRL]. *)
Inductive TypeSym : Type := Sym_PM_TYPE_SRAM.
Inductive LatencySym : Type := Sym_MAX_LATENCY.
Inductive RegSym : Type := Sym_PMU_GLOBAL_RAM_RET_CNTRL.

(** One initialiser, field by field ([.slv.node.x] is [init_x], and so
    on); [NULL] is [None] and [ARRAY_SIZE] is the length of the array. *)
Record SramInit : Type := {
  init_derived : Memory;
  init_nodeId : Memory;
  init_typeId : TypeSym;
  init_parent : option PowerParent;
  init_currState : PmStateId;
  init_latencyMarg : LatencySym;
  init_ops : option unit;
  init_powerInfo : list Z;
  init_powerInfoCnt : Z;
  init_reqs : list (ReqArray * Memory);
  init_reqsCnt : Z;
  init_wake : option unit;
  init_slvFsm : FsmRef;
  init_flags : SlaveFlags;
  init_PwrDn : PwrFn;
  init_PwrUp : PwrFn;
  init_retCtrlAddr : RegSym;
  init_retCtrlMask : Memory
}.

Definition pmL2Reqs : list (ReqArray * Memory) := [ (ApuReq, L2) ].
Definition pmOcm0Reqs : list (ReqArray * Memory) :=
  [ (ApuReq, Ocm0); (Rpu0Req, Ocm0) ].
Definition pmOcm1Reqs : list (ReqArray * Memory) :=
  [ (ApuReq, Ocm1); (Rpu0Req, Ocm1) ].
Definition pmOcm2Reqs : list (ReqArray * Memory) :=
  [ (ApuReq, Ocm2); (Rpu0Req, Ocm2) ].
Definition pmOcm3Reqs : list (ReqArray * Memory) :=
  [ (ApuReq, Ocm3); (Rpu0Req, Ocm3) ].
Definition pmTcm0AReqs : list (ReqArray * Memory) :=
  [ (Rpu0Req, Tcm0A); (ApuReq, Tcm0A) ].
Definition pmTcm0BReqs : list (ReqArray * Memory) :=
  [ (Rpu0Req, Tcm0B); (ApuReq, Tcm0B) ].
Definition pmTcm1AReqs : list (ReqArray * Memory) :=
  [ (Rpu0Req, Tcm1A); (ApuReq, Tcm1A) ].
Definition pmTcm1BReqs : list (ReqArray * Memory) :=
  [ (Rpu0Req, Tcm1B); (ApuReq, Tcm1B) ].

Definition pmSlaveL2_init : SramInit :=
  {| init_derived := L2;
     init_nodeId := L2;
     init_typeId := Sym_PM_TYPE_SRAM;
     init_parent := Some PowerDomainFpd;
     init_currState := PM_SRAM_STATE_ON;
     init_latencyMarg := Sym_MAX_LATENCY;
     init_ops := None;
     init_powerInfo := PmSramPowers;
     init_powerInfoCnt := Z.of_nat (length PmSramPowers);
     init_reqs := pmL2Reqs;
     init_reqsCnt := Z.of_nat (length pmL2Reqs);
     init_wake := None;
     init_slvFsm := slaveSramFsm_ref;
     init_flags := NoFlags;
     init_PwrDn := Fn_PmL2PwrDn;
     init_PwrUp := Fn_XpbrPwrUp L2;
     init_retCtrlAddr := Sym_PMU_GLOBAL_RAM_RET_CNTRL;
     init_retCtrlMask := L2 |}.

Definition pmSlaveOcm0_init : SramInit :=
  {| init_derived := Ocm0;
     init_nodeId := Ocm0;
     init_typeId := Sym_PM_TYPE_SRAM;
     init_parent := None;
     init_currState := PM_SRAM_STATE_ON;
     init_latencyMarg := Sym_MAX_LATENCY;
     init_ops := None;
     init_powerInfo := PmSramPowers;
     init_powerInfoCnt := Z.of_nat (length PmSramPowers);
     init_reqs := pmOcm0Reqs;
     init_reqsCnt := Z.of_nat (length pmOcm0Reqs);
     init_wake := None;
     init_slvFsm := slaveSramFsm_ref;
     init_flags := IsShareable;
     init_PwrDn := Fn_XpbrPwrDn Ocm0;
     init_PwrUp := Fn_XpbrPwrUp Ocm0;
     init_retCtrlAddr := Sym_PMU_GLOBAL_RAM_RET_CNTRL;
     init_retCtrlMask := Ocm0 |}.

Definition pmSlaveOcm1_init : SramInit :=
  {| init_derived := Ocm1;
     init_nodeId := Ocm1;
     init_typeId := Sym_PM_TYPE_SRAM;
     init_parent := None;
     init_currState := PM_SRAM_STATE_ON;
     init_latencyMarg := Sym_MAX_LATENCY;
     init_ops := None;
     init_powerInfo := PmSramPowers;
     init_powerInfoCnt := Z.of_nat (length PmSramPowers);
     init_reqs := pmOcm1Reqs;
     init_reqsCnt := Z.of_nat (length pmOcm1Reqs);
     init_wake := None;
     init_slvFsm := slaveSramFsm_ref;
     init_flags := IsShareable;
     init_PwrDn := Fn_XpbrPwrDn Ocm1;
     init_PwrUp := Fn_XpbrPwrUp Ocm1;
     init_retCtrlAddr := Sym_PMU_GLOBAL_RAM_RET_CNTRL;
     init_retCtrlMask := Ocm1 |}.

Definition pmSlaveOcm2_init : SramInit :=
  {| init_derived := Ocm2;
     init_nodeId := Ocm2;
     init_typeId := Sym_PM_TYPE_SRAM;
     init_parent := None;
     init_currState := PM_SRAM_STATE_ON;
     init_latencyMarg := Sym_MAX_LATENCY;
     init_ops := None;
     init_powerInfo := PmSramPowers;
     init_powerInfoCnt := Z.of_nat (length PmSramPowers);
     init_reqs := pmOcm2Reqs;
     init_reqsCnt := Z.of_nat (length pmOcm2Reqs);
     init_wake := None;
     init_slvFsm := slaveSramFsm_ref;
     init_flags := IsShareable;
     init_PwrDn := Fn_XpbrPwrDn Ocm2;
     init_PwrUp := Fn_XpbrPwrUp Ocm2;
     init_retCtrlAddr := Sym_PMU_GLOBAL_RAM_RET_CNTRL;
     init_retCtrlMask := Ocm2 |}.

Definition pmSlaveOcm3_init : SramInit :=
  {| init_derived := Ocm3;
     init_nodeId := Ocm3;
     init_typeId := Sym_PM_TYPE_SRAM;
     init_parent := None;
     init_currState := PM_SRAM_STATE_ON;
     init_latencyMarg := Sym_MAX_LATENCY;
     init_ops := None;
     init_powerInfo := PmSramPowers;
     init_powerInfoCnt := Z.of_nat (length PmSramPowers);
     init_reqs := pmOcm3Reqs;
     init_reqsCnt := Z.of_nat (length pmOcm3Reqs);
     init_wake := None;
     init_slvFsm := slaveSramFsm_ref;
     init_flags := IsShareable;
     init_PwrDn := Fn_XpbrPwrDn Ocm3;
     init_PwrUp := Fn_XpbrPwrUp Ocm3;
     init_retCtrlAddr := Sym_PMU_GLOBAL_RAM_RET_CNTRL;
     init_retCtrlMask := Ocm3 |}.

Definition pmSlaveTcm0A_init : SramInit :=
  {| init_derived := Tcm0A;
     init_nodeId := Tcm0A;
     init_typeId := Sym_PM_TYPE_SRAM;
     init_parent := Some PowerIslandRpu;
     init_currState := PM_SRAM_STATE_ON;
     init_latencyMarg := Sym_MAX_LATENCY;
     init_ops := None;
     init_powerInfo := PmSramPowers;
     init_powerInfoCnt := Z.of_nat (length PmSramPowers);
     init_reqs := pmTcm0AReqs;
     init_reqsCnt := Z.of_nat (length pmTcm0AReqs);
     init_wake := None;
     init_slvFsm := slaveTcmFsm_ref;
     init_flags := IsShareable;
     init_PwrDn := Fn_XpbrPwrDn Tcm0A;
     init_PwrUp := Fn_XpbrPwrUp Tcm0A;
     init_retCtrlAddr := Sym_PMU_GLOBAL_RAM_RET_CNTRL;
     init_retCtrlMask := Tcm0A |}.

Definition pmSlaveTcm0B_init : SramInit :=
  {| init_derived := Tcm0B;
     init_nodeId := Tcm0B;
     init_typeId := Sym_PM_TYPE_SRAM;
     init_parent := Some PowerIslandRpu;
     init_currState := PM_SRAM_STATE_ON;
     init_latencyMarg := Sym_MAX_LATENCY;
     init_ops := None;
     init_powerInfo := PmSramPowers;
     init_powerInfoCnt := Z.of_nat (length PmSramPowers);
     init_reqs := pmTcm0BReqs;
     init_reqsCnt := Z.of_nat (length pmTcm0BReqs);
     init_wake := None;
     init_slvFsm := slaveTcmFsm_ref;
     init_flags := IsShareable;
     init_PwrDn := Fn_XpbrPwrDn Tcm0B;
     init_PwrUp := Fn_XpbrPwrUp Tcm0B;
     init_retCtrlAddr := Sym_PMU_GLOBAL_RAM_RET_CNTRL;
     init_retCtrlMask := Tcm0B |}.

Definition pmSlaveTcm1A_init : SramInit :=
  {| init_derived := Tcm1A;
     init_nodeId := Tcm1A;
     init_typeId := Sym_PM_TYPE_SRAM;
     init_parent := Some PowerIslandRpu;
     init_currState := PM_SRAM_STATE_ON;
     init_latencyMarg := Sym_MAX_LATENCY;
     init_ops := None;
     init_powerInfo := PmSramPowers;
     init_powerInfoCnt := Z.of_nat (length PmSramPowers);
     init_reqs := pmTcm1AReqs;
     init_reqsCnt := Z.of_nat (length pmTcm1AReqs);
     init_wake := None;
     init_slvFsm := slaveTcmFsm_ref;
     init_flags := IsShareable;
     init_PwrDn := Fn_XpbrPwrDn Tcm1A;
     init_PwrUp := Fn_XpbrPwrUp Tcm1A;
     init_retCtrlAddr := Sym_PMU_GLOBAL_RAM_RET_CNTRL;
     init_retCtrlMask := Tcm1A |}.

Definition pmSlaveTcm1B_init : SramInit :=
  {| init_derived := Tcm1B;
     init_nodeId := Tcm1B;
     init_typeId := Sym_PM_TYPE_SRAM;
     init_parent := Some PowerIslandRpu;
     init_currState := PM_SRAM_STATE_ON;
     init_latencyMarg := Sym_MAX_LATENCY;
     init_ops := None;
     init_powerInfo := PmSramPowers;
     init_powerInfoCnt := Z.of_nat (length PmSramPowers);
     init_reqs := pmTcm1BReqs;
     init_reqsCnt := Z.of_nat (length pmTcm1BReqs);
     init_wake := None;
     init_slvFsm := slaveTcmFsm_ref;
     init_flags := IsShareable;
     init_PwrDn := Fn_XpbrPwrDn Tcm1B;
     init_PwrUp := Fn_XpbrPwrUp Tcm1B;
     init_retCtrlAddr := Sym_PMU_GLOBAL_RAM_RET_CNTRL;
     init_retCtrlMask := Tcm1B |}.

(** The nine instances, in the order of the file. *)
Definition pmSramInits : list SramInit :=
  [ pmSlaveL2_init; pmSlaveOcm0_init; pmSlaveOcm1_init; pmSlaveOcm2_init;
    pmSlaveOcm3_init; pmSlaveTcm0A_init; pmSlaveTcm0B_init;
    pmSlaveTcm1A_init; pmSlaveTcm1B_init ].

(** ** Requests issued one after the other *)

(** The handler is the [enterState] of both FSMs and is called once per
    state change.  [PmSramRequests] issues the requests of a list in order,
    each on the bank as the previous call left it, and collects the
    statuses. *)
Fixpoint PmSramRequests {xst : XStatus} (sram : PmSlaveSram)
    (targets : list PmStateId) : M (list Z * PmSlaveSram) :=
  match targets with
  | [] => ret ([], sram)
  | t :: ts =>
      r <- PmSramFsmHandler sram t ;;
      rs <- PmSramRequests (snd r) ts ;;
      ret (fst r :: fst rs, snd rs)
  end.

(** The target of the last request whose status is success, or [init] when
    there is none. *)
Fixpoint last_committed {xst : XStatus} (init : PmStateId)
    (targets : list PmStateId) (statuses : list Z) : PmStateId :=
  match targets, statuses with
  | t :: ts, st :: sts =>
      last_committed (if XST_SUCCESS =? st then t else init) ts sts
  | _, _ => init
  end.

(** The run of the power action a transition selects: power-down on the
    registers after the retention write, power-up on the registers as they
    are. *)
Definition action_run (sram : PmSlaveSram) (next : PmStateId) (hw : Regs)
    (d : Direction) : Z * Regs * list Event :=
  match d with
  | Downward => power_down_run sram next hw
  | Upward => PwrUp sram hw
  end.

(** A power action that never changes the register at [addr]. *)
Definition leaves_register (f : M Z) (addr : Z) : Prop :=
  forall h, regs_after (f h) addr = h addr.

(** A value that fits a [u32]. *)
Definition is_u32 (x : Z) : Prop := 0 <= x < 2 ^ 32.

(** ** Machine-integer and register lemmas *)

Lemma to_u32_to_int (r : Z) : to_u32 (to_int r) = r mod 2 ^ 32.
Proof.
  unfold to_u32, to_int.
  destruct (r mod 2 ^ 32 <? 2 ^ 31).
  - apply Z.mod_mod. lia.
  - replace (r mod 2 ^ 32 - 2 ^ 32) with (r mod 2 ^ 32 + (-1) * 2 ^ 32) by lia.
    rewrite Z.mod_add by lia. apply Z.mod_mod. lia.
Qed.

Lemma not32_testbit (m i : Z) :
  0 <= i -> Z.testbit (not32 m) i = (i <? 32) && negb (Z.testbit m i).
Proof.
  intros Hi. unfold not32, to_u32.
  destruct (Z.ltb_spec i 32) as [Hlt | Hge]; cbn [andb].
  - rewrite Z.mod_pow2_bits_low by lia. apply Z.lnot_spec; lia.
  - apply Z.mod_pow2_bits_high. lia.
Qed.

Lemma rmw_value_sets (old m : Z) : Z.land (rmw_value old m m) m = m.
Proof.
  unfold rmw_value. apply Z.bits_inj'. intros i Hi.
  rewrite !Z.land_spec, Z.lor_spec, !Z.land_spec, not32_testbit by lia.
  destruct (Z.testbit m i), (Z.testbit old i), (i <? 32); reflexivity.
Qed.

Lemma rmw_value_clears (old m : Z) :
  Z.land (rmw_value old m (not32 m)) m = 0.
Proof.
  unfold rmw_value. apply Z.bits_inj'. intros i Hi.
  rewrite Z.bits_0, !Z.land_spec, Z.lor_spec, !Z.land_spec, not32_testbit by lia.
  destruct (Z.testbit m i), (Z.testbit old i), (i <? 32); reflexivity.
Qed.

Lemma rmw_value_ret_ctrl (old m : Z) (next : PmStateId) :
  Z.land (rmw_value old m (ret_ctrl_value m next)) m =
  if PM_SRAM_STATE_RET =? next then m else 0.
Proof.
  unfold ret_ctrl_value. destruct (PM_SRAM_STATE_RET =? next).
  - apply rmw_value_sets.
  - apply rmw_value_clears.
Qed.

Lemma rmw32_at (hw : Regs) (addr mask val : Z) :
  rmw32 hw addr mask val addr = rmw_value (hw addr) mask val.
Proof. unfold rmw32, Xil_Out32, Xil_In32. now rewrite Z.eqb_refl. Qed.

Lemma rmw32_elsewhere (hw : Regs) (addr mask val a : Z) :
  a <> addr -> rmw32 hw addr mask val a = hw a.
Proof.
  intros Ha. unfold rmw32, Xil_Out32.
  destruct (Z.eqb_spec a addr); [contradiction | reflexivity].
Qed.

(** ** The runs of the handler, branch by branch *)

Section HandlerRuns.
Context {xst : XStatus}.
Variables (sram : PmSlaveSram) (next : PmStateId) (hw : Regs).

Ltac run_handler :=
  unfold PmSramFsmHandler, handled, ret_ctrl_value, commit, bind, call,
    XPfw_RMW32, PmNodeUpdateCurrState, PmDbg, emit, ret in *.

(* Splits on the state tests of the handler, in the order of its [switch],
   and discards the combinations the hypotheses exclude. *)
Ltac split_states H :=
  destruct (Z.eqb_spec (sram_currState sram) PM_SRAM_STATE_ON) as [C2 | C2];
  [| destruct (Z.eqb_spec (sram_currState sram) PM_SRAM_STATE_RET) as [C1 | C1];
     [| destruct (Z.eqb_spec (sram_currState sram) PM_SRAM_STATE_OFF)
          as [C0 | C0] ] ];
  destruct (Z.eqb_spec PM_SRAM_STATE_RET next) as [N1 | N1];
  destruct (Z.eqb_spec PM_SRAM_STATE_ON next) as [N2 | N2];
  destruct (Z.eqb_spec PM_SRAM_STATE_OFF next) as [N0 | N0];
  try discriminate H;
  try (exfalso; unfold configured, PM_SRAM_STATE_RET, PM_SRAM_STATE_ON,
         PM_SRAM_STATE_OFF in *; lia).

Ltac run_callee f :=
  let r := fresh "r" in
  let hw1 := fresh "hw1" in
  let inner := fresh "inner" in
  match goal with
  | |- context [f sram ?h] => destruct (f sram h) as [[r hw1] inner]
  end;
  cbn [result regs_after calls fst snd];
  destruct (XST_SUCCESS =? to_int r); reflexivity.

Lemma handler_downward :
  handled (sram_currState sram) next = Some Downward ->
  let v := ret_ctrl_value (retCtrlMask sram) next in
  let dn := PwrDn sram (rmw32 hw (retCtrlAddr sram) (retCtrlMask sram) v) in
  let c := commit (to_int (result dn)) sram next in
  PmSramFsmHandler sram next hw =
    (fst c, regs_after dn,
     EvRMW32 (retCtrlAddr sram) (retCtrlMask sram) v
       :: EvCall sram_PwrDn (calls dn) :: snd c).
Proof.
  intros H. run_handler. split_states H; run_callee PwrDn.
Qed.

Lemma handler_upward :
  handled (sram_currState sram) next = Some Upward ->
  let up := PwrUp sram hw in
  let c := commit (to_int (result up)) sram next in
  PmSramFsmHandler sram next hw =
    (fst c, regs_after up, EvCall sram_PwrUp (calls up) :: snd c).
Proof.
  intros H. run_handler. split_states H; run_callee PwrUp.
Qed.

Lemma handler_rejects :
  configured (sram_currState sram) ->
  handled (sram_currState sram) next = None ->
  let c := commit XST_NO_FEATURE sram next in
  PmSramFsmHandler sram next hw = (fst c, hw, snd c).
Proof.
  intros Hc H. run_handler. split_states H.
  all: destruct (XST_SUCCESS =? XST_NO_FEATURE); reflexivity.
Qed.

Lemma handler_unknown_state :
  ~ configured (sram_currState sram) ->
  let c := commit XST_PM_INTERNAL sram next in
  PmSramFsmHandler sram next hw =
    (fst c, hw, EvPmDbg (sram_currState sram) :: snd c).
Proof.
  intros Hc. run_handler. assert (H : True) by exact I. split_states H.
  all: destruct (XST_SUCCESS =? XST_PM_INTERNAL); reflexivity.
Qed.

Lemma commit_failure (status : Z) :
  status <> XST_SUCCESS -> commit status sram next = ((status, sram), []).
Proof.
  intros H. unfold commit.
  destruct (Z.eqb_spec XST_SUCCESS status); [congruence | reflexivity].
Qed.

Lemma commit_success :
  commit XST_SUCCESS sram next =
    ((XST_SUCCESS, set_currState sram next), [EvUpdateCurrState next]).
Proof. unfold commit. now rewrite Z.eqb_refl. Qed.

(** Every pair of configured states without an edge in the table, other
    than RET -> OFF, has no branch in the handler. *)
Lemma no_edge_unhandled {caps : PmCaps} :
  has_edge pmSramTransitions (sram_currState sram) next = false ->
  ~ (sram_currState sram = PM_SRAM_STATE_RET /\ next = PM_SRAM_STATE_OFF) ->
  handled (sram_currState sram) next = None.
Proof.
  intros He Hn. unfold handled.
  cbn [has_edge pmSramTransitions existsb fromState toState] in He.
  repeat match type of He with
         | context [?a =? ?b] => destruct (Z.eqb_spec a b)
         end;
  repeat match goal with
         | |- context [?a =? ?b] => destruct (Z.eqb_spec a b)
         end;
  try reflexivity; try discriminate He;
  exfalso; unfold PM_SRAM_STATE_RET, PM_SRAM_STATE_ON, PM_SRAM_STATE_OFF in *;
  lia.
Qed.

Lemma commit_no_hw_action (status : Z) :
  filter is_hw_action (snd (commit status sram next)) = [].
Proof. unfold commit. destruct (XST_SUCCESS =? status); reflexivity. Qed.

Lemma commit_status (status : Z) :
  fst (fst (commit status sram next)) = status.
Proof. unfold commit. destruct (XST_SUCCESS =? status); reflexivity. Qed.

Lemma commit_slave (status : Z) :
  snd (fst (commit status sram next)) =
    if XST_SUCCESS =? status then set_currState sram next else sram.
Proof. unfold commit. destruct (XST_SUCCESS =? status); reflexivity. Qed.

Lemma commit_update_logged (status : Z) (s : PmStateId) :
  In (EvUpdateCurrState s) (snd (commit status sram next)) <->
  status = XST_SUCCESS /\ s = next.
Proof.
  unfold commit. destruct (Z.eqb_spec XST_SUCCESS status) as [E | E]; cbn.
  - split.
    + intros [H | []]. injection H as ->. auto.
    + intros [_ ->]. auto.
  - split; [intros [] | intros [H _]; congruence].
Qed.

(** Every run ends with [commit] applied to the status of the selected
    action, and nothing before it updates the recorded state. *)
Lemma handler_shape :
  exists status hw1 pre,
    PmSramFsmHandler sram next hw =
      (fst (commit status sram next), hw1, pre ++ snd (commit status sram next))
    /\ forall s, ~ In (EvUpdateCurrState s) pre.
Proof.
  assert (Hdec : configured (sram_currState sram) \/
                 ~ configured (sram_currState sram)).
  { unfold configured. lia. }
  destruct Hdec as [Hc | Hc].
  - destruct (handled (sram_currState sram) next) as [[|] |] eqn:Hh.
    + eexists _, _, [_; _]. split; [apply (handler_downward Hh) |].
      intros s [H | [H | []]]; discriminate H.
    + eexists _, _, [_]. split; [apply (handler_upward Hh) |].
      intros s [H | []]; discriminate H.
    + eexists _, _, []. split; [apply (handler_rejects Hc Hh) |].
      intros s [].
  - eexists _, _, [_]. split; [apply (handler_unknown_state Hc) |].
    intros s [H | []]; discriminate H.
Qed.

End HandlerRuns.

(** ** Properties of the FSM handler *)

Section HandlerProperties.
Context {xst : XStatus} {caps : PmCaps}.

(** C1 (as amended).  For every bank whose recorded state is OFF, RETENTION
    or ON and every target such that the pair has no edge in the transition
    table: if the pair is not RETENTION -> OFF, the handler returns
    [XST_NO_FEATURE], performs no call and no register write, and leaves
    the bank unchanged.  For RETENTION -> OFF, which has no edge in the
    table either, the handler does have a branch: it clears the retention
    mask, calls the power-down action once on the registers so written,
    returns that action's status, and records OFF when the status is
    [XST_SUCCESS].  No other power action is called, so nothing is chained
    through ON. *)
Theorem unconnected_pair_rejected_except_ret_off
    (sram : PmSlaveSram) (next : PmStateId) (hw : Regs) :
  XST_NO_FEATURE <> XST_SUCCESS ->
  configured (sram_currState sram) ->
  has_edge pmSramTransitions (sram_currState sram) next = false ->
  let run := PmSramFsmHandler sram next hw in
  (~ (sram_currState sram = PM_SRAM_STATE_RET /\ next = PM_SRAM_STATE_OFF) ->
     run = ((XST_NO_FEATURE, sram), hw, []))
  /\
  (sram_currState sram = PM_SRAM_STATE_RET /\ next = PM_SRAM_STATE_OFF ->
     let clear := not32 (retCtrlMask sram) in
     let dn :=
       PwrDn sram (rmw32 hw (retCtrlAddr sram) (retCtrlMask sram) clear) in
     fst (result run) = to_int (result dn) /\
     regs_after run = regs_after dn /\
     hw_actions run =
       [EvRMW32 (retCtrlAddr sram) (retCtrlMask sram) clear;
        EvCall sram_PwrDn (calls dn)] /\
     (fst (result run) = XST_SUCCESS ->
        sram_currState (snd (result run)) = PM_SRAM_STATE_OFF)).
Proof.
  intros Hns Hc He run. split.
  - intros Hn. subst run.
    rewrite (handler_rejects _ _ hw Hc (no_edge_unhandled _ _ He Hn)).
    now rewrite commit_failure.
  - intros [Hcur ->]. intros clear dn.
    assert (Hh : handled (sram_currState sram) PM_SRAM_STATE_OFF
                 = Some Downward) by (rewrite Hcur; reflexivity).
    subst run. rewrite (handler_downward _ _ hw Hh).
    change (ret_ctrl_value (retCtrlMask sram) PM_SRAM_STATE_OFF) with clear.
    fold dn. unfold hw_actions, result, regs_after, calls.
    cbn [fst snd filter is_hw_action].
    rewrite commit_no_hw_action, commit_status, commit_slave.
    repeat split; try reflexivity.
    intros Hs. rewrite <- Hs, Z.eqb_refl. reflexivity.
Qed.

(** C2 (as amended).  For every bank and every configured state [s],
    requesting a transition from [s] to [s] calls neither power action,
    writes no register and leaves the bank unchanged, and the handler
    reports [XST_NO_FEATURE]. *)
Theorem same_state_request_is_no_feature (sram : PmSlaveSram) (hw : Regs) :
  XST_NO_FEATURE <> XST_SUCCESS ->
  configured (sram_currState sram) ->
  PmSramFsmHandler sram (sram_currState sram) hw =
    ((XST_NO_FEATURE, sram), hw, []).
Proof.
  intros Hns Hc.
  assert (Hh : handled (sram_currState sram) (sram_currState sram) = None).
  { destruct Hc as [-> | [-> | ->]]; reflexivity. }
  rewrite (handler_rejects _ _ hw Hc Hh). now rewrite commit_failure.
Qed.

(** C3.  The recorded state is updated exactly when the handler returns
    [XST_SUCCESS]: the update to the requested target is made if and only
    if the status is success; on success the bank leaves the call with the
    target as its recorded state, and on any other status the bank is
    unchanged. *)
Theorem state_committed_iff_success
    (sram : PmSlaveSram) (next : PmStateId) (hw : Regs) :
  let run := PmSramFsmHandler sram next hw in
  let status := fst (result run) in
  let sram' := snd (result run) in
  (forall s, In (EvUpdateCurrState s) (calls run) <->
             status = XST_SUCCESS /\ s = next) /\
  (status = XST_SUCCESS ->
     sram' = set_currState sram next /\ sram_currState sram' = next) /\
  (status <> XST_SUCCESS -> sram' = sram).
Proof.
  destruct (handler_shape sram next hw) as (st & hw1 & pre & -> & Hpre).
  unfold result, calls. cbn [fst snd].
  rewrite commit_status, commit_slave. split; [| split].
  - intros s. split.
    + intros H. apply in_app_or in H. destruct H as [H | H].
      * now apply Hpre in H.
      * now apply commit_update_logged in H.
    + intros H. apply in_or_app. right. now apply commit_update_logged.
  - intros <-. rewrite Z.eqb_refl. split; reflexivity.
  - intros Hs. destruct (Z.eqb_spec XST_SUCCESS st); congruence.
Qed.

(** C4.  On each downward transition (ON -> RET, ON -> OFF, RET -> OFF) the
    handler first performs the retention-control read-modify-write for the
    target state, which leaves the bits under the mask all set for a
    RETENTION target and all clear for an OFF target and touches no other
    register, and then calls the power-down action, which runs on the
    registers so written.  On each
    upward transition (OFF -> ON, RET -> ON) the only action is the call of
    the power-up action, on the registers as they were: there is no
    retention-control write. *)
Theorem retention_write_precedes_power_down
    (sram : PmSlaveSram) (next : PmStateId) (hw : Regs) (d : Direction) :
  transition (sram_currState sram) next d ->
  let run := PmSramFsmHandler sram next hw in
  match d with
  | Downward =>
      let dn := power_down_run sram next hw in
      hw_actions run =
        [EvRMW32 (retCtrlAddr sram) (retCtrlMask sram)
                 (ret_ctrl_value (retCtrlMask sram) next);
         EvCall sram_PwrDn (calls dn)] /\
      regs_after run = regs_after dn /\
      fst (result run) = to_int (result dn) /\
      Z.land (retention_written sram next hw (retCtrlAddr sram))
             (retCtrlMask sram) =
        (if PM_SRAM_STATE_RET =? next then retCtrlMask sram else 0) /\
      (forall a, a <> retCtrlAddr sram ->
                 retention_written sram next hw a = hw a)
  | Upward =>
      let up := PwrUp sram hw in
      hw_actions run = [EvCall sram_PwrUp (calls up)] /\
      regs_after run = regs_after up /\
      fst (result run) = to_int (result up)
  end.
Proof.
  intros Ht run.
  assert (Hh : handled (sram_currState sram) next = Some d)
    by (destruct Ht; reflexivity).
  subst run. destruct d.
  - rewrite (handler_downward _ _ hw Hh).
    unfold power_down_run, retention_written, hw_actions, result, regs_after,
      calls.
    cbn [fst snd filter is_hw_action].
    rewrite commit_no_hw_action, commit_status, rmw32_at.
    repeat split.
    + apply rmw_value_ret_ctrl.
    + intros a Ha. now apply rmw32_elsewhere.
  - rewrite (handler_upward _ _ hw Hh).
    unfold hw_actions, result, regs_after, calls.
    cbn [fst snd filter is_hw_action].
    rewrite commit_no_hw_action, commit_status. repeat split.
Qed.

(** C5.  For every bank whose recorded state is OFF, a request for
    RETENTION returns [XST_NO_FEATURE], performs no call and no register
    write, and the recorded state remains OFF. *)
Theorem off_to_retention_rejected (sram : PmSlaveSram) (hw : Regs) :
  XST_NO_FEATURE <> XST_SUCCESS ->
  sram_currState sram = PM_SRAM_STATE_OFF ->
  let run := PmSramFsmHandler sram PM_SRAM_STATE_RET hw in
  run = ((XST_NO_FEATURE, sram), hw, []) /\
  sram_currState (snd (result run)) = PM_SRAM_STATE_OFF.
Proof.
  intros Hns Hcur run.
  assert (Hrun : run = ((XST_NO_FEATURE, sram), hw, [])).
  { subst run. rewrite handler_rejects.
    - now rewrite commit_failure.
    - left. exact Hcur.
    - rewrite Hcur. reflexivity. }
  split; [exact Hrun | now rewrite Hrun].
Qed.

(** C8.  If the recorded state of a bank is none of OFF, RETENTION and ON,
    then for every requested target the handler returns [XST_PM_INTERNAL],
    which is neither success nor [XST_NO_FEATURE]; it calls no power action
    and writes no register (its only log entry is the diagnostic print),
    and it leaves the bank unchanged. *)
Theorem unknown_state_is_internal_error
    (sram : PmSlaveSram) (next : PmStateId) (hw : Regs) :
  XST_PM_INTERNAL <> XST_SUCCESS ->
  XST_PM_INTERNAL <> XST_NO_FEATURE ->
  ~ configured (sram_currState sram) ->
  let run := PmSramFsmHandler sram next hw in
  fst (result run) = XST_PM_INTERNAL /\
  fst (result run) <> XST_SUCCESS /\
  fst (result run) <> XST_NO_FEATURE /\
  calls run = [EvPmDbg (sram_currState sram)] /\
  hw_actions run = [] /\
  regs_after run = hw /\
  snd (result run) = sram.
Proof.
  intros Hs Hn Hc run. subst run.
  rewrite (handler_unknown_state _ next hw Hc), commit_failure by exact Hs.
  repeat split; assumption.
Qed.

(** C9.  On a downward transition whose power-down action returns a status
    other than success, the bank's recorded state is unchanged, yet the
    retention-control write has been made and nothing follows the
    power-down call in the log: the write is not undone.  The registers the
    handler leaves are those the power-down action left, and if that
    action did not itself touch the retention-control register, the bits
    under the bank's mask read as for the target that was not reached (all
    set for RETENTION, all clear for OFF). *)
Theorem failed_power_down_keeps_retention_write
    (sram : PmSlaveSram) (next : PmStateId) (hw : Regs) :
  transition (sram_currState sram) next Downward ->
  to_int (result (power_down_run sram next hw)) <> XST_SUCCESS ->
  regs_after (power_down_run sram next hw) (retCtrlAddr sram) =
    retention_written sram next hw (retCtrlAddr sram) ->
  let run := PmSramFsmHandler sram next hw in
  let dn := power_down_run sram next hw in
  fst (result run) = to_int (result dn) /\
  snd (result run) = sram /\
  calls run =
    [EvRMW32 (retCtrlAddr sram) (retCtrlMask sram)
             (ret_ctrl_value (retCtrlMask sram) next);
     EvCall sram_PwrDn (calls dn)] /\
  regs_after run = regs_after dn /\
  Z.land (regs_after run (retCtrlAddr sram)) (retCtrlMask sram) =
    (if PM_SRAM_STATE_RET =? next then retCtrlMask sram else 0).
Proof.
  intros Ht Hfail Hframe run dn.
  assert (Hh : handled (sram_currState sram) next = Some Downward)
    by (inversion Ht; reflexivity).
  subst run. rewrite (handler_downward _ _ hw Hh).
  fold (retention_written sram next hw). fold (power_down_run sram next hw).
  rewrite commit_failure by exact Hfail.
  unfold result, regs_after, calls. cbn [fst snd].
  repeat split.
  unfold regs_after in Hframe. fold dn in Hframe. subst dn. rewrite Hframe.
  unfold retention_written. rewrite rmw32_at. apply rmw_value_ret_ctrl.
Qed.

End HandlerProperties.

(** ** Properties of the tables and of the FSM descriptors *)

Section TableProperties.
Context {xst : XStatus} {caps : PmCaps} {rom : PmuRom}.

Ltac by_bits :=
  unfold caps_subset; apply Z.bits_inj'; intros i Hi;
  rewrite ?Z.land_spec, ?Z.lor_spec, ?Z.bits_0; btauto.

Lemma subset_zero (a : Z) : caps_subset 0 a.
Proof. by_bits. Qed.

Lemma subset_ctx_pwr_on (a c p : Z) :
  caps_subset (Z.lor c p) (Z.lor (Z.lor a c) p).
Proof. by_bits. Qed.

Lemma subset_ctx_on (a c p : Z) : caps_subset c (Z.lor (Z.lor a c) p).
Proof. by_bits. Qed.

Lemma subset_lor_l (c p : Z) : caps_subset c (Z.lor c p).
Proof. by_bits. Qed.

Lemma subset_lor_r (c p : Z) : caps_subset p (Z.lor c p).
Proof. by_bits. Qed.

Ltac edges :=
  repeat constructor; cbn [fromState toState];
  unfold PM_SRAM_STATE_OFF, PM_SRAM_STATE_RET, PM_SRAM_STATE_ON;
  try (intros Hlt; exfalso; lia); intros _;
  first [apply subset_zero | apply subset_ctx_pwr_on | apply subset_ctx_on].

(** C6.  In both the SRAM and the TCM state table the capability sets are
    non-decreasing along OFF, RETENTION, ON, and along every edge of the
    transition table capabilities only increase when the edge goes up and
    only decrease when it goes down. *)
Theorem state_tables_monotone :
  caps_monotone pmSramStates /\ caps_monotone pmTcmStates.
Proof.
  split; unfold caps_monotone; (split; [| split]).
  - apply subset_zero.
  - apply subset_ctx_pwr_on.
  - unfold pmSramTransitions. edges.
  - apply subset_zero.
  - apply subset_ctx_on.
  - unfold pmSramTransitions. edges.
Qed.

(** C7.  Provided the CONTEXT and POWER capabilities are distinct bits: in
    the TCM table RETENTION is exactly the CONTEXT capability and does not
    include POWER, whereas in the SRAM table RETENTION includes both
    CONTEXT and POWER; the OFF and the ON entries of the two tables are
    the same; and the two FSM descriptors share the transition table and
    the handler. *)
Theorem tcm_retention_lacks_power :
  Z.land PM_CAP_CONTEXT PM_CAP_POWER = 0 ->
  PM_CAP_POWER <> 0 ->
  (state_caps pmTcmStates PM_SRAM_STATE_RET = PM_CAP_CONTEXT /\
   ~ caps_subset PM_CAP_POWER (state_caps pmTcmStates PM_SRAM_STATE_RET)) /\
  (caps_subset PM_CAP_CONTEXT (state_caps pmSramStates PM_SRAM_STATE_RET) /\
   caps_subset PM_CAP_POWER (state_caps pmSramStates PM_SRAM_STATE_RET)) /\
  (state_caps pmTcmStates PM_SRAM_STATE_OFF =
     state_caps pmSramStates PM_SRAM_STATE_OFF /\
   state_caps pmTcmStates PM_SRAM_STATE_ON =
     state_caps pmSramStates PM_SRAM_STATE_ON) /\
  (trans slaveTcmFsm = pmSramTransitions /\
   trans slaveSramFsm = pmSramTransitions /\
   transCnt slaveTcmFsm = transCnt slaveSramFsm /\
   statesCnt slaveTcmFsm = statesCnt slaveSramFsm) /\
  (enterState slaveTcmFsm = PmSramFsmHandler /\
   enterState slaveSramFsm = PmSramFsmHandler) /\
  (states (fsm_of (slvFsm (slv pmSlaveTcm0A_g))) = pmTcmStates /\
   states (fsm_of (slvFsm (slv pmSlaveL2_g))) = pmSramStates).
Proof.
  intros Hdisj Hp.
  repeat match goal with |- _ /\ _ => split end; try reflexivity.
  - change (state_caps pmTcmStates PM_SRAM_STATE_RET) with PM_CAP_CONTEXT.
    unfold caps_subset. rewrite Z.land_comm, Hdisj. congruence.
  - apply subset_lor_l.
  - apply subset_lor_r.
Qed.

(** C10.  The power-down action bound to the L2 bank is [PmL2PwrDn].  It
    calls the ROM handler and then, whatever status the handler returned,
    performs the read-modify-write that sets the L2 reset bits of the APU
    reset register, on the registers the handler left; it returns the
    handler's status as it is.  After the call the L2 reset bits are set,
    also when the handler failed. *)
Theorem l2_power_down_asserts_reset (hw : Regs) :
  0 <= result (XpbrPwrDnL2Bank0Handler hw) < 2 ^ 32 ->
  let rom_run := XpbrPwrDnL2Bank0Handler hw in
  let run := PmL2PwrDn hw in
  PwrDn pmSlaveL2_g = PmL2PwrDn /\
  result run = result rom_run /\
  calls run =
    [EvCall Xpbr_PwrDnL2Bank0 (calls rom_run);
     EvRMW32 CRF_APB_RST_FPD_APU CRF_APB_RST_FPD_APU_APU_L2_RESET_MASK
             CRF_APB_RST_FPD_APU_APU_L2_RESET_MASK] /\
  regs_after run =
    rmw32 (regs_after rom_run) CRF_APB_RST_FPD_APU
          CRF_APB_RST_FPD_APU_APU_L2_RESET_MASK
          CRF_APB_RST_FPD_APU_APU_L2_RESET_MASK /\
  Z.land (regs_after run CRF_APB_RST_FPD_APU)
         CRF_APB_RST_FPD_APU_APU_L2_RESET_MASK =
    CRF_APB_RST_FPD_APU_APU_L2_RESET_MASK.
Proof.
  intros Hr rom_run run. subst run rom_run.
  unfold PmL2PwrDn, bind, call, XPfw_RMW32, ret.
  destruct (XpbrPwrDnL2Bank0Handler hw) as [[r hw1] inner].
  unfold result, regs_after, calls in *. cbn [fst snd app] in *.
  repeat split.
  - rewrite to_u32_to_int. apply Z.mod_small. exact Hr.
  - rewrite rmw32_at. apply rmw_value_sets.
Qed.

End TableProperties.

(** ** Runs on the concrete platform *)

(** C1, the claim as stated fails: the table has no RET -> OFF edge, yet
    for a TCM bank in RETENTION the handler answers a request for OFF with
    success, not [XST_NO_FEATURE], and records OFF. *)
Lemma ret_to_off_is_performed :
  has_edge (@pmSramTransitions sample_caps)
           (sram_currState sample_tcm_ret) PM_SRAM_STATE_OFF = false /\
  fst (result (@PmSramFsmHandler sample_xst sample_tcm_ret PM_SRAM_STATE_OFF
                                 sample_regs))
    = @XST_SUCCESS sample_xst /\
  fst (result (@PmSramFsmHandler sample_xst sample_tcm_ret PM_SRAM_STATE_OFF
                                 sample_regs))
    <> @XST_NO_FEATURE sample_xst /\
  sram_currState
    (snd (result (@PmSramFsmHandler sample_xst sample_tcm_ret
                                    PM_SRAM_STATE_OFF sample_regs)))
    <> sram_currState sample_tcm_ret.
Proof. vm_compute. repeat split; discriminate. Qed.

Lemma unconnected_pair_rejected_except_ret_off_witness :
  (@XST_NO_FEATURE sample_xst <> @XST_SUCCESS sample_xst /\
   configured (sram_currState sample_tcm_off) /\
   has_edge (@pmSramTransitions sample_caps)
            (sram_currState sample_tcm_off) PM_SRAM_STATE_RET = false) /\
  @PmSramFsmHandler sample_xst sample_tcm_off PM_SRAM_STATE_RET sample_regs
    = ((19, sample_tcm_off), sample_regs, []).
Proof.
  assert (Hns : @XST_NO_FEATURE sample_xst <> @XST_SUCCESS sample_xst)
    by (vm_compute; discriminate).
  assert (Hc : configured (sram_currState sample_tcm_off))
    by (left; reflexivity).
  assert (He : has_edge (@pmSramTransitions sample_caps)
                 (sram_currState sample_tcm_off) PM_SRAM_STATE_RET = false)
    by reflexivity.
  split; [repeat split; assumption |].
  apply (proj1 (@unconnected_pair_rejected_except_ret_off
                  sample_xst sample_caps sample_tcm_off PM_SRAM_STATE_RET
                  sample_regs Hns Hc He)).
  intros [H _]. discriminate H.
Defined.

(** C2, the claim as stated fails: a bank in ON asked for ON gets
    [XST_NO_FEATURE], which is not the success status. *)
Lemma same_state_request_not_success :
  fst (result (@PmSramFsmHandler sample_xst sample_l2
                 (sram_currState sample_l2) sample_regs))
    = @XST_NO_FEATURE sample_xst /\
  fst (result (@PmSramFsmHandler sample_xst sample_l2
                 (sram_currState sample_l2) sample_regs))
    <> @XST_SUCCESS sample_xst.
Proof. vm_compute. split; [reflexivity | discriminate]. Qed.

Lemma same_state_request_is_no_feature_witness :
  (@XST_NO_FEATURE sample_xst <> @XST_SUCCESS sample_xst /\
   configured (sram_currState sample_tcm_ret)) /\
  @PmSramFsmHandler sample_xst sample_tcm_ret (sram_currState sample_tcm_ret)
                    sample_regs
    = ((19, sample_tcm_ret), sample_regs, []).
Proof.
  assert (Hns : @XST_NO_FEATURE sample_xst <> @XST_SUCCESS sample_xst)
    by (vm_compute; discriminate).
  assert (Hc : configured (sram_currState sample_tcm_ret))
    by (right; left; reflexivity).
  split; [repeat split; assumption |].
  exact (@same_state_request_is_no_feature sample_xst sample_tcm_ret
           sample_regs Hns Hc).
Defined.

Lemma state_committed_iff_success_witness :
  (fst (result (@PmSramFsmHandler sample_xst sample_tcm_off PM_SRAM_STATE_ON
                                  sample_regs)) = @XST_SUCCESS sample_xst /\
   sram_currState
     (snd (result (@PmSramFsmHandler sample_xst sample_tcm_off
                                     PM_SRAM_STATE_ON sample_regs)))
     = PM_SRAM_STATE_ON) /\
  (fst (result (@PmSramFsmHandler sample_xst sample_l2 PM_SRAM_STATE_OFF
                                  sample_regs)) <> @XST_SUCCESS sample_xst /\
   snd (result (@PmSramFsmHandler sample_xst sample_l2 PM_SRAM_STATE_OFF
                                  sample_regs)) = sample_l2).
Proof.
  assert (Hok : fst (result (@PmSramFsmHandler sample_xst sample_tcm_off
                               PM_SRAM_STATE_ON sample_regs))
                = @XST_SUCCESS sample_xst) by reflexivity.
  assert (Hko : fst (result (@PmSramFsmHandler sample_xst sample_l2
                               PM_SRAM_STATE_OFF sample_regs))
                <> @XST_SUCCESS sample_xst) by (vm_compute; discriminate).
  split; (split; [assumption |]).
  - apply (proj1 (proj2 (@state_committed_iff_success sample_xst
                           sample_tcm_off PM_SRAM_STATE_ON sample_regs))).
    exact Hok.
  - apply (proj2 (proj2 (@state_committed_iff_success sample_xst
                           sample_l2 PM_SRAM_STATE_OFF sample_regs))).
    exact Hko.
Defined.

Lemma retention_write_precedes_power_down_witness :
  transition (sram_currState sample_tcm) PM_SRAM_STATE_RET Downward /\
  hw_actions (@PmSramFsmHandler sample_xst sample_tcm PM_SRAM_STATE_RET
                                sample_regs)
    = [EvRMW32 256 16 16; EvCall sram_PwrDn []] /\
  transition (sram_currState sample_tcm_off) PM_SRAM_STATE_ON Upward /\
  hw_actions (@PmSramFsmHandler sample_xst sample_tcm_off PM_SRAM_STATE_ON
                                sample_regs)
    = [EvCall sram_PwrUp []].
Proof.
  assert (Hd : transition (sram_currState sample_tcm) PM_SRAM_STATE_RET
                 Downward) by exact on_to_ret.
  assert (Hu : transition (sram_currState sample_tcm_off) PM_SRAM_STATE_ON
                 Upward) by exact off_to_on.
  split; [exact Hd | split; [| split; [exact Hu |]]].
  - exact (proj1 (@retention_write_precedes_power_down sample_xst sample_tcm
                    PM_SRAM_STATE_RET sample_regs Downward Hd)).
  - exact (proj1 (@retention_write_precedes_power_down sample_xst
                    sample_tcm_off PM_SRAM_STATE_ON sample_regs Upward Hu)).
Defined.

Lemma off_to_retention_rejected_witness :
  (@XST_NO_FEATURE sample_xst <> @XST_SUCCESS sample_xst /\
   sram_currState sample_tcm_off = PM_SRAM_STATE_OFF) /\
  @PmSramFsmHandler sample_xst sample_tcm_off PM_SRAM_STATE_RET sample_regs
    = ((19, sample_tcm_off), sample_regs, []).
Proof.
  assert (Hns : @XST_NO_FEATURE sample_xst <> @XST_SUCCESS sample_xst)
    by (vm_compute; discriminate).
  split; [split; [exact Hns | reflexivity] |].
  exact (proj1 (@off_to_retention_rejected sample_xst sample_tcm_off
                  sample_regs Hns eq_refl)).
Defined.

Lemma state_tables_monotone_witness :
  caps_subset (state_caps (@pmSramStates sample_caps) PM_SRAM_STATE_RET)
              (state_caps (@pmSramStates sample_caps) PM_SRAM_STATE_ON) /\
  caps_subset (state_caps (@pmTcmStates sample_caps) PM_SRAM_STATE_RET)
              (state_caps (@pmTcmStates sample_caps) PM_SRAM_STATE_ON).
Proof.
  split.
  - exact (proj1 (proj2 (proj1 (@state_tables_monotone sample_caps)))).
  - exact (proj1 (proj2 (proj2 (@state_tables_monotone sample_caps)))).
Defined.

Lemma tcm_retention_lacks_power_witness :
  (Z.land (@PM_CAP_CONTEXT sample_caps) (@PM_CAP_POWER sample_caps) = 0 /\
   @PM_CAP_POWER sample_caps <> 0) /\
  ~ caps_subset (@PM_CAP_POWER sample_caps)
                (state_caps (@pmTcmStates sample_caps) PM_SRAM_STATE_RET).
Proof.
  assert (Hd : Z.land (@PM_CAP_CONTEXT sample_caps)
                      (@PM_CAP_POWER sample_caps) = 0) by reflexivity.
  assert (Hp : @PM_CAP_POWER sample_caps <> 0) by (vm_compute; discriminate).
  split; [repeat split; assumption |].
  exact (proj2 (proj1 (@tcm_retention_lacks_power sample_xst sample_caps
                         sample_rom Hd Hp))).
Defined.

Lemma unknown_state_is_internal_error_witness :
  (@XST_PM_INTERNAL sample_xst <> @XST_SUCCESS sample_xst /\
   @XST_PM_INTERNAL sample_xst <> @XST_NO_FEATURE sample_xst /\
   ~ configured (sram_currState sample_tcm_unknown)) /\
  fst (result (@PmSramFsmHandler sample_xst sample_tcm_unknown
                                 PM_SRAM_STATE_ON sample_regs)) = 2000 /\
  snd (result (@PmSramFsmHandler sample_xst sample_tcm_unknown
                                 PM_SRAM_STATE_ON sample_regs))
    = sample_tcm_unknown.
Proof.
  assert (Hs : @XST_PM_INTERNAL sample_xst <> @XST_SUCCESS sample_xst)
    by (vm_compute; discriminate).
  assert (Hn : @XST_PM_INTERNAL sample_xst <> @XST_NO_FEATURE sample_xst)
    by (vm_compute; discriminate).
  assert (Hc : ~ configured (sram_currState sample_tcm_unknown)).
  { vm_compute. intros [H | [H | H]]; discriminate H. }
  pose proof (@unknown_state_is_internal_error sample_xst sample_tcm_unknown
                PM_SRAM_STATE_ON sample_regs Hs Hn Hc) as H.
  split; [repeat split; assumption |]. split; [apply H | apply H].
Defined.

Lemma failed_power_down_keeps_retention_write_witness :
  (transition (sram_currState sample_l2) PM_SRAM_STATE_RET Downward /\
   to_int (result (power_down_run sample_l2 PM_SRAM_STATE_RET sample_regs))
     <> @XST_SUCCESS sample_xst /\
   regs_after (power_down_run sample_l2 PM_SRAM_STATE_RET sample_regs)
              (retCtrlAddr sample_l2)
     = retention_written sample_l2 PM_SRAM_STATE_RET sample_regs
                         (retCtrlAddr sample_l2)) /\
  snd (result (@PmSramFsmHandler sample_xst sample_l2 PM_SRAM_STATE_RET
                                 sample_regs)) = sample_l2 /\
  Z.land (regs_after (@PmSramFsmHandler sample_xst sample_l2
                        PM_SRAM_STATE_RET sample_regs)
                     (retCtrlAddr sample_l2))
         (retCtrlMask sample_l2)
    = retCtrlMask sample_l2.
Proof.
  assert (Ht : transition (sram_currState sample_l2) PM_SRAM_STATE_RET
                 Downward) by exact on_to_ret.
  assert (Hf : to_int (result (power_down_run sample_l2 PM_SRAM_STATE_RET
                                 sample_regs))
               <> @XST_SUCCESS sample_xst) by (vm_compute; discriminate).
  assert (Hr : regs_after (power_down_run sample_l2 PM_SRAM_STATE_RET
                             sample_regs) (retCtrlAddr sample_l2)
               = retention_written sample_l2 PM_SRAM_STATE_RET sample_regs
                   (retCtrlAddr sample_l2)) by reflexivity.
  pose proof (@failed_power_down_keeps_retention_write sample_xst sample_l2
                PM_SRAM_STATE_RET sample_regs Ht Hf Hr) as H.
  split; [repeat split; assumption |]. split; apply H.
Defined.

Lemma l2_power_down_asserts_reset_witness :
  0 <= result (@XpbrPwrDnL2Bank0Handler sample_rom sample_regs) < 2 ^ 32 /\
  result (@PmL2PwrDn sample_rom sample_regs) = 1 /\
  Z.land (regs_after (@PmL2PwrDn sample_rom sample_regs)
                     (@CRF_APB_RST_FPD_APU sample_rom))
         (@CRF_APB_RST_FPD_APU_APU_L2_RESET_MASK sample_rom)
    = @CRF_APB_RST_FPD_APU_APU_L2_RESET_MASK sample_rom.
Proof.
  assert (Hr : 0 <= result (@XpbrPwrDnL2Bank0Handler sample_rom sample_regs)
               < 2 ^ 32) by (vm_compute; split; [discriminate | reflexivity]).
  pose proof (@l2_power_down_asserts_reset sample_rom sample_regs Hr) as H.
  split; [exact Hr |]. split; apply H.
Defined.

(** ** Further properties of the handler *)

Section HandlerCases.
Context {xst : XStatus}.

Lemma configured_dec (s : PmStateId) : configured s \/ ~ configured s.
Proof. unfold configured. lia. Qed.

Lemma handled_complete (cur next : PmStateId) (d : Direction) :
  transition cur next d -> handled cur next = Some d.
Proof. intros H. destruct H; reflexivity. Qed.

Lemma handled_sound (cur next : PmStateId) (d : Direction) :
  handled cur next = Some d -> transition cur next d.
Proof.
  unfold handled. intros H.
  destruct (Z.eqb_spec cur PM_SRAM_STATE_ON) as [C2 | C2];
    [| destruct (Z.eqb_spec cur PM_SRAM_STATE_RET) as [C1 | C1];
       [| destruct (Z.eqb_spec cur PM_SRAM_STATE_OFF) as [C0 | C0] ] ].
  all: destruct (Z.eqb_spec PM_SRAM_STATE_RET next) as [N1 | N1].
  all: destruct (Z.eqb_spec PM_SRAM_STATE_ON next) as [N2 | N2].
  all: destruct (Z.eqb_spec PM_SRAM_STATE_OFF next) as [N0 | N0].
  all: try discriminate H.
  all: try (exfalso; unfold PM_SRAM_STATE_RET, PM_SRAM_STATE_ON,
              PM_SRAM_STATE_OFF in *; lia).
  all: injection H as <-; subst; constructor.
Qed.

Lemma transition_configured (cur next : PmStateId) (d : Direction) :
  transition cur next d -> configured cur /\ configured next.
Proof. intros H. destruct H; unfold configured; auto. Qed.

Lemma transition_order (cur next : PmStateId) (d : Direction) :
  transition cur next d ->
  match d with Upward => cur < next | Downward => next < cur end.
Proof. intros H. destruct H; reflexivity. Qed.

(** The first entries of the log for a handled transition. *)
Lemma handler_transition
    (sram : PmSlaveSram) (next : PmStateId) (hw : Regs) (d : Direction) :
  transition (sram_currState sram) next d ->
  let a := action_run sram next hw d in
  let c := commit (to_int (result a)) sram next in
  PmSramFsmHandler sram next hw =
    (fst c, regs_after a,
     match d with
     | Downward =>
         [EvRMW32 (retCtrlAddr sram) (retCtrlMask sram)
                  (ret_ctrl_value (retCtrlMask sram) next);
          EvCall sram_PwrDn (calls a)]
     | Upward => [EvCall sram_PwrUp (calls a)]
     end ++ snd c).
Proof.
  intros Ht. apply handled_complete in Ht. destruct d.
  - exact (handler_downward sram next hw Ht).
  - exact (handler_upward sram next hw Ht).
Qed.

(** The three kinds of run. *)
Lemma handler_cases (sram : PmSlaveSram) (next : PmStateId) (hw : Regs) :
  (exists d, transition (sram_currState sram) next d) \/
  (configured (sram_currState sram) /\
   handled (sram_currState sram) next = None) \/
  ~ configured (sram_currState sram).
Proof.
  destruct (configured_dec (sram_currState sram)) as [Hc | Hc]; [| auto].
  destruct (handled (sram_currState sram) next) as [d |] eqn:Hh; [| auto].
  left. exists d. now apply handled_sound.
Qed.

Lemma set_currState_fields (sram : PmSlaveSram) (s : PmStateId) :
  sram_currState (set_currState sram s) = s /\
  nodeId (node (slv (set_currState sram s))) = nodeId (node (slv sram)) /\
  slvFsm (slv (set_currState sram s)) = slvFsm (slv sram) /\
  PwrDn (set_currState sram s) = PwrDn sram /\
  PwrUp (set_currState sram s) = PwrUp sram /\
  retCtrlAddr (set_currState sram s) = retCtrlAddr sram /\
  retCtrlMask (set_currState sram s) = retCtrlMask sram.
Proof. repeat split. Qed.

Lemma set_currState_same (sram : PmSlaveSram) :
  set_currState sram (sram_currState sram) = sram.
Proof. destruct sram as [[[n c] f] dn up a m]. reflexivity. Qed.

Lemma set_currState_twice (sram : PmSlaveSram) (s t : PmStateId) :
  set_currState (set_currState sram s) t = set_currState sram t.
Proof. reflexivity. Qed.

Lemma handler_step_configured
    (sram : PmSlaveSram) (next : PmStateId) (hw : Regs) :
  XST_NO_FEATURE <> XST_SUCCESS ->
  configured (sram_currState sram) ->
  configured (sram_currState (snd (result (PmSramFsmHandler sram next hw)))).
Proof.
  intros Hns Hc.
  destruct (handler_cases sram next hw) as [[d Ht] | [[_ Hh] | Hn]].
  - rewrite (handler_transition sram next hw d Ht).
    unfold result. cbn [fst snd]. rewrite commit_slave.
    destruct (XST_SUCCESS =? _); [| exact Hc].
    apply (transition_configured _ _ _ Ht).
  - rewrite (handler_rejects sram next hw Hc Hh), commit_failure by exact Hns.
    exact Hc.
  - contradiction.
Qed.

Lemma handler_step_fields
    (sram : PmSlaveSram) (next : PmStateId) (hw : Regs) :
  let sram' := snd (result (PmSramFsmHandler sram next hw)) in
  (sram' = sram \/ sram' = set_currState sram next) /\
  nodeId (node (slv sram')) = nodeId (node (slv sram)) /\
  slvFsm (slv sram') = slvFsm (slv sram) /\
  PwrDn sram' = PwrDn sram /\
  PwrUp sram' = PwrUp sram /\
  retCtrlAddr sram' = retCtrlAddr sram /\
  retCtrlMask sram' = retCtrlMask sram.
Proof.
  destruct (handler_shape sram next hw) as (st & hw1 & pre & -> & _).
  unfold result. cbn [fst snd]. rewrite commit_slave.
  destruct (XST_SUCCESS =? st); repeat split; auto.
Qed.

(** X1.  The handler keeps the recorded state inside the configured state
    set: if it is OFF, RETENTION or ON before a request, it is so after the
    request, whatever the requested target (also one that is no state at
    all) and whatever the power actions do. *)
Theorem handler_preserves_configured
    (sram : PmSlaveSram) (next : PmStateId) (hw : Regs) :
  XST_NO_FEATURE <> XST_SUCCESS ->
  configured (sram_currState sram) ->
  configured (sram_currState (snd (result (PmSramFsmHandler sram next hw)))).
Proof. exact (handler_step_configured sram next hw). Qed.

(** X2.  A request changes nothing of a bank but its recorded state: the
    node identity, the FSM, the two power actions and the retention-control
    address and mask are the same after any call. *)
Theorem handler_changes_only_currState
    (sram : PmSlaveSram) (next : PmStateId) (hw : Regs) :
  let sram' := snd (result (PmSramFsmHandler sram next hw)) in
  (sram' = sram \/ sram' = set_currState sram next) /\
  nodeId (node (slv sram')) = nodeId (node (slv sram)) /\
  slvFsm (slv sram') = slvFsm (slv sram) /\
  PwrDn sram' = PwrDn sram /\
  PwrUp sram' = PwrUp sram /\
  retCtrlAddr sram' = retCtrlAddr sram /\
  retCtrlMask sram' = retCtrlMask sram.
Proof. exact (handler_step_fields sram next hw). Qed.

(** X3.  The handler returns success exactly when the requested pair is one
    of its five transitions and the power action of that transition
    returned a status that reads as success; no request succeeds without a
    power action having succeeded. *)
Theorem success_iff_action_succeeded
    (sram : PmSlaveSram) (next : PmStateId) (hw : Regs) :
  XST_NO_FEATURE <> XST_SUCCESS ->
  XST_PM_INTERNAL <> XST_SUCCESS ->
  fst (result (PmSramFsmHandler sram next hw)) = XST_SUCCESS <->
  exists d, transition (sram_currState sram) next d /\
            to_int (result (action_run sram next hw d)) = XST_SUCCESS.
Proof.
  intros Hns Hpi.
  destruct (handler_cases sram next hw) as [[d Ht] | [[Hc Hh] | Hn]].
  - rewrite (handler_transition sram next hw d Ht).
    unfold result at 1. cbn [fst snd]. rewrite commit_status. split.
    + intros Hs. exists d. auto.
    + intros (d' & Ht' & Hs).
      apply handled_complete in Ht, Ht'. congruence.
  - rewrite (handler_rejects sram next hw Hc Hh), commit_failure by exact Hns.
    split; [intros Hs; contradiction |].
    intros (d & Ht & _). apply handled_complete in Ht. congruence.
  - rewrite (handler_unknown_state sram next hw Hn), commit_failure
      by exact Hpi.
    split; [intros Hs; contradiction |].
    intros (d & Ht & _). apply transition_configured in Ht. tauto.
Qed.

(** X4.  Whatever the request, the handler performs one of three things: no
    hardware action at all; one call of the power-up action; or one write
    to the bank's own retention-control register, with the mask or its
    complement as value, followed by one call of the power-down action.
    It never calls both actions and never writes after a call. *)
Theorem handler_action_shapes
    (sram : PmSlaveSram) (next : PmStateId) (hw : Regs) :
  let run := PmSramFsmHandler sram next hw in
  (hw_actions run = [] /\ regs_after run = hw) \/
  (exists inner, hw_actions run = [EvCall sram_PwrUp inner]) \/
  (exists v inner,
     hw_actions run =
       [EvRMW32 (retCtrlAddr sram) (retCtrlMask sram) v;
        EvCall sram_PwrDn inner] /\
     (v = retCtrlMask sram \/ v = not32 (retCtrlMask sram))).
Proof.
  intros run. subst run.
  destruct (handler_cases sram next hw) as [[d Ht] | [[Hc Hh] | Hn]].
  - rewrite (handler_transition sram next hw d Ht).
    unfold hw_actions, calls. cbn [fst snd]. rewrite filter_app.
    rewrite commit_no_hw_action, app_nil_r. destruct d; cbn.
    + right; right. eexists _, _. split; [reflexivity |].
      unfold ret_ctrl_value. destruct (_ =? _); auto.
    + right; left. eexists. reflexivity.
  - left. rewrite (handler_rejects sram next hw Hc Hh).
    unfold hw_actions, calls, regs_after. cbn [fst snd].
    now rewrite commit_no_hw_action.
  - left. rewrite (handler_unknown_state sram next hw Hn).
    unfold hw_actions, calls, regs_after. cbn [fst snd filter is_hw_action].
    now rewrite commit_no_hw_action.
Qed.

End HandlerCases.

Section RequestSequences.
Context {xst : XStatus} {caps : PmCaps}.


Lemma handler_currState (sram : PmSlaveSram) (next : PmStateId) (hw : Regs) :
  let run := PmSramFsmHandler sram next hw in
  sram_currState (snd (result run)) =
    if XST_SUCCESS =? fst (result run) then next else sram_currState sram.
Proof.
  destruct (handler_shape sram next hw) as (st & hw1 & pre & -> & _).
  unfold result. cbn [fst snd]. rewrite commit_status, commit_slave.
  destruct (XST_SUCCESS =? st); reflexivity.
Qed.

Lemma PmSramRequests_cons
    (sram : PmSlaveSram) (t : PmStateId) (ts : list PmStateId) (hw : Regs) :
  let first := PmSramFsmHandler sram t hw in
  let rest := PmSramRequests (snd (result first)) ts (regs_after first) in
  PmSramRequests sram (t :: ts) hw =
    ((fst (result first) :: fst (result rest), snd (result rest)),
     regs_after rest, calls first ++ calls rest).
Proof.
  cbn [PmSramRequests]. unfold bind, ret, result, regs_after, calls.
  destruct (PmSramFsmHandler sram t hw) as [[[st s1] hw1] e1]. cbn [fst snd].
  destruct (PmSramRequests s1 ts hw1) as [[[sts s2] hw2] e2]. cbn [fst snd].
  now rewrite app_nil_r.
Qed.

Lemma PmSramRequests_step
    (sram s1 : PmSlaveSram) (t : PmStateId) (ts : list PmStateId)
    (hw hw1 : Regs) (st : Z) (e1 : list Event) :
  PmSramFsmHandler sram t hw = ((st, s1), hw1, e1) ->
  let rest := PmSramRequests s1 ts hw1 in
  PmSramRequests sram (t :: ts) hw =
    ((st :: fst (result rest), snd (result rest)),
     regs_after rest, e1 ++ calls rest).
Proof. intros H. rewrite PmSramRequests_cons, H. reflexivity. Qed.

Lemma handler_success_step
    (sram : PmSlaveSram) (next : PmStateId) (hw : Regs) (d : Direction) :
  transition (sram_currState sram) next d ->
  to_int (result (action_run sram next hw d)) = XST_SUCCESS ->
  PmSramFsmHandler sram next hw =
    ((XST_SUCCESS, set_currState sram next),
     regs_after (action_run sram next hw d),
     match d with
     | Downward =>
         [EvRMW32 (retCtrlAddr sram) (retCtrlMask sram)
                  (ret_ctrl_value (retCtrlMask sram) next);
          EvCall sram_PwrDn (calls (action_run sram next hw d))]
     | Upward => [EvCall sram_PwrUp (calls (action_run sram next hw d))]
     end ++ [EvUpdateCurrState next]).
Proof.
  intros Ht Hs. rewrite (handler_transition sram next hw d Ht). cbn zeta.
  now rewrite Hs, commit_success.
Qed.

(** X6.  After any sequence of requests there is one status per request,
    and the recorded state is the target of the last request that returned
    success, or the initial state when none did. *)
Theorem requests_commit_last_success
    (targets : list PmStateId) (sram : PmSlaveSram) (hw : Regs) :
  let run := PmSramRequests sram targets hw in
  length (fst (result run)) = length targets /\
  sram_currState (snd (result run)) =
    last_committed (sram_currState sram) targets (fst (result run)).
Proof.
  revert sram hw. induction targets as [| t ts IH]; intros sram hw.
  - cbn. auto.
  - cbn zeta. rewrite PmSramRequests_cons.
    destruct (IH (snd (result (PmSramFsmHandler sram t hw)))
                 (regs_after (PmSramFsmHandler sram t hw))) as [Hl Hs].
    pose proof (handler_currState sram t hw) as Hc. cbn zeta in Hc.
    unfold result in *. cbn [fst snd length last_committed] in *.
    split; [now rewrite Hl |].
    rewrite Hs, Hc. reflexivity.
Qed.

(** X7.  Over any sequence of requests the bank keeps its identity, its
    FSM, its power actions and its retention-control address and mask, and
    a recorded state that starts inside the configured state set stays
    inside it. *)
Theorem requests_preserve_bank
    (targets : list PmStateId) (sram : PmSlaveSram) (hw : Regs) :
  XST_NO_FEATURE <> XST_SUCCESS ->
  configured (sram_currState sram) ->
  let sram' := snd (result (PmSramRequests sram targets hw)) in
  configured (sram_currState sram') /\
  nodeId (node (slv sram')) = nodeId (node (slv sram)) /\
  slvFsm (slv sram') = slvFsm (slv sram) /\
  PwrDn sram' = PwrDn sram /\
  PwrUp sram' = PwrUp sram /\
  retCtrlAddr sram' = retCtrlAddr sram /\
  retCtrlMask sram' = retCtrlMask sram.
Proof.
  intros Hns. revert sram hw.
  induction targets as [| t ts IH]; intros sram hw Hc.
  - cbn. auto 10.
  - cbn zeta. rewrite PmSramRequests_cons.
    pose proof (handler_step_configured sram t hw Hns Hc) as Hc1.
    pose proof (handler_step_fields sram t hw) as Hf.
    cbn zeta in Hf. destruct Hf as (_ & F1 & F2 & F3 & F4 & F5 & F6).
    specialize (IH _ (regs_after (PmSramFsmHandler sram t hw)) Hc1).
    cbn zeta in IH. destruct IH as (G0 & G1 & G2 & G3 & G4 & G5 & G6).
    unfold result in *. cbn [fst snd] in *.
    repeat split; [assumption | congruence ..].
Qed.

(** X8.  A recorded state outside the configured state set is never left:
    every request of any sequence returns [XST_PM_INTERNAL], the bank and
    the registers stay as they are, and the log holds one diagnostic print
    per request and nothing else. *)
Theorem unknown_state_is_absorbing
    (targets : list PmStateId) (sram : PmSlaveSram) (hw : Regs) :
  XST_PM_INTERNAL <> XST_SUCCESS ->
  ~ configured (sram_currState sram) ->
  PmSramRequests sram targets hw =
    ((map (fun _ => XST_PM_INTERNAL) targets, sram), hw,
     map (fun _ => EvPmDbg (sram_currState sram)) targets).
Proof.
  intros Hpi Hn. induction targets as [| t ts IH].
  - reflexivity.
  - rewrite PmSramRequests_cons.
    rewrite (handler_unknown_state sram t hw Hn), commit_failure by exact Hpi.
    unfold result, regs_after, calls. cbn [fst snd]. rewrite IH.
    reflexivity.
Qed.

(** X9.  Round trip.  From ON, a request for RETENTION or OFF whose
    power-down succeeds, followed by a request for ON whose power-up
    succeeds, returns success twice and gives back the bank exactly as it
    was; the hardware actions are the retention write, the power-down call
    and the power-up call, in this order. *)
Theorem down_up_round_trip
    (sram : PmSlaveSram) (t : PmStateId) (hw : Regs) :
  sram_currState sram = PM_SRAM_STATE_ON ->
  t = PM_SRAM_STATE_RET \/ t = PM_SRAM_STATE_OFF ->
  to_int (result (power_down_run sram t hw)) = XST_SUCCESS ->
  to_int (result (PwrUp sram (regs_after (power_down_run sram t hw))))
    = XST_SUCCESS ->
  let dn := power_down_run sram t hw in
  let up := PwrUp sram (regs_after dn) in
  let run := PmSramRequests sram [t; PM_SRAM_STATE_ON] hw in
  fst (result run) = [XST_SUCCESS; XST_SUCCESS] /\
  snd (result run) = sram /\
  regs_after run = regs_after up /\
  hw_actions run =
    [EvRMW32 (retCtrlAddr sram) (retCtrlMask sram)
             (ret_ctrl_value (retCtrlMask sram) t);
     EvCall sram_PwrDn (calls dn);
     EvCall sram_PwrUp (calls up)].
Proof.
  intros Hon Ht Hdn Hup dn up run.
  assert (T1 : transition (sram_currState sram) t Downward).
  { rewrite Hon. destruct Ht as [-> | ->]; constructor. }
  assert (T2 : transition (sram_currState (set_currState sram t))
                          PM_SRAM_STATE_ON Upward).
  { destruct Ht as [-> | ->]; constructor. }
  subst run up dn.
  rewrite (PmSramRequests_step _ _ _ _ _ _ _ _
             (handler_success_step sram t hw Downward T1 Hdn)).
  cbn zeta. cbn [action_run].
  rewrite (PmSramRequests_step _ _ _ _ _ _ _ _
             (handler_success_step (set_currState sram t) PM_SRAM_STATE_ON
                (regs_after (power_down_run sram t hw)) Upward T2 Hup)).
  cbn zeta. cbn [action_run PmSramRequests].
  rewrite set_currState_twice, <- Hon, set_currState_same.
  unfold hw_actions, ret, result, regs_after, calls.
  cbn [fst snd app filter is_hw_action].
  repeat split.
Qed.

(** X10.  Retention bits are cleared only by a transition to OFF.  If both
    power actions of a bank leave its retention-control register alone and
    the bits under its mask are all set, then after any request for a
    target other than OFF, whatever its outcome, they are still all set;
    in particular a return from RETENTION to ON does not clear them. *)
Theorem retention_bits_survive_unless_off
    (sram : PmSlaveSram) (next : PmStateId) (hw : Regs) :
  leaves_register (PwrDn sram) (retCtrlAddr sram) ->
  leaves_register (PwrUp sram) (retCtrlAddr sram) ->
  next <> PM_SRAM_STATE_OFF ->
  Z.land (hw (retCtrlAddr sram)) (retCtrlMask sram) = retCtrlMask sram ->
  Z.land (regs_after (PmSramFsmHandler sram next hw) (retCtrlAddr sram))
         (retCtrlMask sram) = retCtrlMask sram.
Proof.
  intros Hdn Hup Hoff Hset.
  destruct (handler_cases sram next hw) as [[d Ht] | [[Hc Hh] | Hn]].
  - rewrite (handler_transition sram next hw d Ht).
    unfold regs_after at 1. cbn [fst snd]. destruct d; cbn [action_run].
    + unfold power_down_run. rewrite Hdn. unfold retention_written.
      rewrite rmw32_at, rmw_value_ret_ctrl.
      inversion Ht; subst; try reflexivity; contradiction.
    + rewrite Hup. exact Hset.
  - now rewrite (handler_rejects sram next hw Hc Hh).
  - now rewrite (handler_unknown_state sram next hw Hn).
Qed.

End RequestSequences.

(** ** The L2 bank and its power-down wrapper *)

Section L2Bank.
Context {xst : XStatus} {rom : PmuRom}.

Lemma to_int_to_u32 (x : Z) : to_int (to_u32 x) = to_int x.
Proof. unfold to_int, to_u32. now rewrite Z.mod_mod by lia. Qed.

Lemma to_int_idem (x : Z) : to_int (to_int x) = to_int x.
Proof.
  unfold to_int.
  assert (Hr : 0 <= x mod 2 ^ 32 < 2 ^ 32) by (apply Z.mod_pos_bound; lia).
  destruct (Z.ltb_spec (x mod 2 ^ 32) (2 ^ 31)) as [Hlt | Hge].
  - rewrite Z.mod_mod by lia.
    destruct (Z.ltb_spec (x mod 2 ^ 32) (2 ^ 31)); [reflexivity | lia].
  - replace ((x mod 2 ^ 32 - 2 ^ 32) mod 2 ^ 32) with (x mod 2 ^ 32).
    + destruct (Z.ltb_spec (x mod 2 ^ 32) (2 ^ 31)); [lia | reflexivity].
    + replace (x mod 2 ^ 32 - 2 ^ 32)
        with (x mod 2 ^ 32 + (-1) * 2 ^ 32) by lia.
      rewrite Z.mod_add by lia. now rewrite Z.mod_mod by lia.
Qed.

Lemma to_u32_range (x : Z) : is_u32 (to_u32 x).
Proof. unfold is_u32, to_u32. apply Z.mod_pos_bound. lia. Qed.

Lemma rmw_value_testbit (old m v i : Z) :
  0 <= i ->
  Z.testbit (rmw_value old m v) i =
    if Z.testbit m i then Z.testbit v i
    else (i <? 32) && Z.testbit old i.
Proof.
  intros Hi. unfold rmw_value.
  rewrite Z.lor_spec, !Z.land_spec, not32_testbit by exact Hi.
  destruct (Z.testbit m i), (Z.testbit v i), (Z.testbit old i), (i <? 32);
    reflexivity.
Qed.

Lemma PmL2PwrDn_run (hw : Regs) :
  let rom_run := XpbrPwrDnL2Bank0Handler hw in
  PmL2PwrDn hw =
    (to_u32 (to_int (result rom_run)),
     rmw32 (regs_after rom_run) CRF_APB_RST_FPD_APU
           CRF_APB_RST_FPD_APU_APU_L2_RESET_MASK
           CRF_APB_RST_FPD_APU_APU_L2_RESET_MASK,
     [EvCall Xpbr_PwrDnL2Bank0 (calls rom_run);
      EvRMW32 CRF_APB_RST_FPD_APU CRF_APB_RST_FPD_APU_APU_L2_RESET_MASK
              CRF_APB_RST_FPD_APU_APU_L2_RESET_MASK]).
Proof.
  unfold PmL2PwrDn, bind, call, XPfw_RMW32, ret, result, regs_after, calls.
  destruct (XpbrPwrDnL2Bank0Handler hw) as [[r hw1] inner]. reflexivity.
Qed.

(** X11.  On top of what the ROM handler did, [PmL2PwrDn] changes only the
    L2 reset bits: every other register, and every other bit of the low 32
    of the APU reset register, is as the ROM handler left it.  The value
    it returns always fits a [u32] and reads back as the same [int]
    status. *)
Theorem l2_power_down_changes_only_reset_bits (hw : Regs) :
  let rom_run := XpbrPwrDnL2Bank0Handler hw in
  let run := PmL2PwrDn hw in
  (forall a, a <> CRF_APB_RST_FPD_APU ->
             regs_after run a = regs_after rom_run a) /\
  (forall i, 0 <= i < 32 ->
     Z.testbit CRF_APB_RST_FPD_APU_APU_L2_RESET_MASK i = false ->
     Z.testbit (regs_after run CRF_APB_RST_FPD_APU) i =
       Z.testbit (regs_after rom_run CRF_APB_RST_FPD_APU) i) /\
  (forall i, 0 <= i ->
     Z.testbit CRF_APB_RST_FPD_APU_APU_L2_RESET_MASK i = true ->
     Z.testbit (regs_after run CRF_APB_RST_FPD_APU) i = true) /\
  is_u32 (result run) /\
  to_int (result run) = to_int (result rom_run).
Proof.
  intros rom_run run. subst run rom_run. rewrite PmL2PwrDn_run.
  unfold result, regs_after. cbn [fst snd].
  split; [| split; [| split; [| split]]].
  - intros a Ha. now apply rmw32_elsewhere.
  - intros i Hi Hm. rewrite rmw32_at, rmw_value_testbit, Hm by lia.
    destruct (Z.ltb_spec i 32); [reflexivity | lia].
  - intros i Hi Hm. rewrite rmw32_at, rmw_value_testbit, Hm by lia.
    reflexivity.
  - apply to_u32_range.
  - rewrite to_int_to_u32. apply to_int_idem.
Qed.

(** X12.  For any bank whose power-down action is [PmL2PwrDn], as the L2
    bank's is, every downward request leaves the L2 reset bits set whether
    or not the ROM handler succeeded; the status returned is the ROM
    handler's, the log nests the ROM call and the reset write under the
    power-down call, and when the APU reset register is not the
    retention-control register the latter is as the ROM handler left
    it. *)
Theorem l2_downward_request_asserts_reset
    (sram : PmSlaveSram) (next : PmStateId) (hw : Regs) :
  PwrDn sram = PmL2PwrDn ->
  transition (sram_currState sram) next Downward ->
  let rom_run := XpbrPwrDnL2Bank0Handler (retention_written sram next hw) in
  let run := PmSramFsmHandler sram next hw in
  fst (result run) = to_int (result rom_run) /\
  Z.land (regs_after run CRF_APB_RST_FPD_APU)
         CRF_APB_RST_FPD_APU_APU_L2_RESET_MASK =
    CRF_APB_RST_FPD_APU_APU_L2_RESET_MASK /\
  hw_actions run =
    [EvRMW32 (retCtrlAddr sram) (retCtrlMask sram)
             (ret_ctrl_value (retCtrlMask sram) next);
     EvCall sram_PwrDn
       [EvCall Xpbr_PwrDnL2Bank0 (calls rom_run);
        EvRMW32 CRF_APB_RST_FPD_APU CRF_APB_RST_FPD_APU_APU_L2_RESET_MASK
                CRF_APB_RST_FPD_APU_APU_L2_RESET_MASK]] /\
  (retCtrlAddr sram <> CRF_APB_RST_FPD_APU ->
   regs_after run (retCtrlAddr sram) = regs_after rom_run (retCtrlAddr sram)).
Proof.
  intros Hb Ht rom_run run. subst run rom_run.
  rewrite (handler_transition sram next hw Downward Ht).
  cbn zeta. cbn [action_run]. unfold power_down_run.
  rewrite Hb, PmL2PwrDn_run. cbn zeta.
  unfold hw_actions, result, regs_after, calls.
  cbn [fst snd].
  rewrite filter_app, commit_no_hw_action, commit_status, to_int_to_u32,
    to_int_idem.
  cbn [filter is_hw_action app].
  repeat split.
  - rewrite rmw32_at. apply rmw_value_sets.
  - intros Ha. now apply rmw32_elsewhere.
Qed.

End L2Bank.

(** ** The state, power and transition tables *)

Section Tables.
Context {xst : XStatus} {caps : PmCaps}.

Ltac bitwise :=
  unfold caps_subset; apply Z.bits_inj'; intros i Hi;
  rewrite ?Z.land_spec, ?Z.lor_spec, ?Z.bits_0; btauto.

Lemma caps_subset_lor_l (a b c : Z) :
  caps_subset a b -> caps_subset a (Z.lor b c).
Proof.
  unfold caps_subset. intros H. apply Z.bits_inj'. intros i Hi.
  apply (f_equal (fun x => Z.testbit x i)) in H.
  rewrite Z.land_spec in H. rewrite Z.land_spec, Z.lor_spec.
  destruct (Z.testbit a i), (Z.testbit b i), (Z.testbit c i);
    cbn in *; congruence.
Qed.

(** X13.  Provided the ACCESS capability is not made up of CONTEXT and
    POWER bits alone, a memory is accessible in the ON state only: in
    both state tables, ON is the one configured state whose capabilities
    include ACCESS. *)
Theorem access_only_in_on (s : PmStateId) :
  ~ caps_subset PM_CAP_ACCESS (Z.lor PM_CAP_CONTEXT PM_CAP_POWER) ->
  configured s ->
  (caps_subset PM_CAP_ACCESS (state_caps pmSramStates s) <->
     s = PM_SRAM_STATE_ON) /\
  (caps_subset PM_CAP_ACCESS (state_caps pmTcmStates s) <->
     s = PM_SRAM_STATE_ON).
Proof.
  intros Hacc Hc.
  assert (Hon : caps_subset PM_CAP_ACCESS
                  (Z.lor (Z.lor PM_CAP_ACCESS PM_CAP_CONTEXT) PM_CAP_POWER))
    by bitwise.
  assert (H0 : ~ caps_subset PM_CAP_ACCESS 0).
  { intros H. apply Hacc. unfold caps_subset in *.
    rewrite Z.land_0_r in H. rewrite <- H. apply Z.land_0_l. }
  assert (Hctx : ~ caps_subset PM_CAP_ACCESS PM_CAP_CONTEXT).
  { intros H. apply Hacc. now apply caps_subset_lor_l. }
  destruct Hc as [-> | [-> | ->]]; split; split;
    change (state_caps pmSramStates PM_SRAM_STATE_OFF) with 0;
    change (state_caps pmTcmStates PM_SRAM_STATE_OFF) with 0;
    change (state_caps pmSramStates PM_SRAM_STATE_RET)
      with (Z.lor PM_CAP_CONTEXT PM_CAP_POWER);
    change (state_caps pmTcmStates PM_SRAM_STATE_RET) with PM_CAP_CONTEXT;
    change (state_caps pmSramStates PM_SRAM_STATE_ON)
      with (Z.lor (Z.lor PM_CAP_ACCESS PM_CAP_CONTEXT) PM_CAP_POWER);
    change (state_caps pmTcmStates PM_SRAM_STATE_ON)
      with (Z.lor (Z.lor PM_CAP_ACCESS PM_CAP_CONTEXT) PM_CAP_POWER);
    intros H; try contradiction; try discriminate H; auto.
Qed.

(** X14.  State by state, the capabilities of the TCM table are included
    in those of the SRAM table, and each table has exactly as many entries
    as its FSM declares states. *)
Theorem tcm_caps_within_sram_caps :
  (forall s, caps_subset (state_caps pmTcmStates s)
                         (state_caps pmSramStates s)) /\
  Z.of_nat (length (states slaveSramFsm)) = statesCnt slaveSramFsm /\
  Z.of_nat (length (states slaveTcmFsm)) = statesCnt slaveTcmFsm.
Proof.
  split; [| split; reflexivity].
  intros s. unfold state_caps, pmTcmStates, pmSramStates.
  destruct (Z.to_nat s) as [| [| [| n]]]; cbn [nth].
  - bitwise.
  - bitwise.
  - bitwise.
  - destruct n; bitwise.
Qed.

Lemma state_tables_entries :
  state_caps pmSramStates 0 = 0 /\
  state_caps pmSramStates 1 = Z.lor PM_CAP_CONTEXT PM_CAP_POWER /\
  state_caps pmSramStates 2 =
    Z.lor (Z.lor PM_CAP_ACCESS PM_CAP_CONTEXT) PM_CAP_POWER /\
  state_caps pmTcmStates 0 = 0 /\
  state_caps pmTcmStates 1 = PM_CAP_CONTEXT /\
  state_caps pmTcmStates 2 =
    Z.lor (Z.lor PM_CAP_ACCESS PM_CAP_CONTEXT) PM_CAP_POWER.
Proof. repeat split. Qed.

Lemma power_table_entries :
  state_power 0 = 0 /\ state_power 1 = 50 /\ state_power 2 = 100.
Proof. repeat split. Qed.

(** X15.  The power figures follow the state order: for configured states
    a higher state draws strictly more power, and a state that draws no
    more power than another has no capability the other lacks, in both
    state tables. *)
Theorem power_follows_state_order (s s' : PmStateId) :
  configured s ->
  configured s' ->
  (s < s' <-> state_power s < state_power s') /\
  (state_power s <= state_power s' ->
     caps_subset (state_caps pmSramStates s) (state_caps pmSramStates s') /\
     caps_subset (state_caps pmTcmStates s) (state_caps pmTcmStates s')).
Proof.
  intros Hs Hs'.
  destruct state_tables_entries as (S0 & S1 & S2 & T0 & T1 & T2).
  destruct power_table_entries as (P0 & P1 & P2).
  unfold configured, PM_SRAM_STATE_OFF, PM_SRAM_STATE_RET,
    PM_SRAM_STATE_ON in *.
  destruct Hs as [-> | [-> | ->]]; destruct Hs' as [-> | [-> | ->]];
    rewrite ?P0, ?P1, ?P2, ?S0, ?S1, ?S2, ?T0, ?T1, ?T2;
    (split; [lia | intros Hle; try lia; split; bitwise]).
Qed.

(** X16.  The transition table is symmetric and has ON at one end of every
    edge: an edge never joins a state to itself, its reverse is an edge
    too, its endpoints are states below [PM_SRAM_STATE_MAX], and one of
    them is ON. *)
Theorem transition_table_shape (a b : PmStateId) :
  has_edge pmSramTransitions a b = true ->
  has_edge pmSramTransitions b a = true /\
  a <> b /\
  (a = PM_SRAM_STATE_ON \/ b = PM_SRAM_STATE_ON) /\
  0 <= a < PM_SRAM_STATE_MAX /\ 0 <= b < PM_SRAM_STATE_MAX.
Proof.
  cbn [has_edge pmSramTransitions existsb fromState toState].
  intros He.
  repeat match type of He with
         | context [?x =? ?y] => destruct (Z.eqb_spec x y)
         end;
  try discriminate He;
  try (exfalso; unfold PM_SRAM_STATE_RET, PM_SRAM_STATE_ON,
         PM_SRAM_STATE_OFF in *; lia);
  subst; repeat split; try reflexivity; try discriminate; auto.
Qed.

(** X17.  Any two distinct configured states are joined in the table
    either by an edge or by two edges through ON, and every entry of the
    table carries the default latency. *)
Theorem transition_table_connected (a b : PmStateId) :
  configured a ->
  configured b ->
  a <> b ->
  (has_edge pmSramTransitions a b = true \/
   (has_edge pmSramTransitions a PM_SRAM_STATE_ON = true /\
    has_edge pmSramTransitions PM_SRAM_STATE_ON b = true)) /\
  Forall (fun t => latency t = PM_DEFAULT_LATENCY) pmSramTransitions /\
  transCnt slaveSramFsm = 4 /\ transCnt slaveTcmFsm = 4.
Proof.
  intros Ha Hb Hab.
  split; [| split; [repeat constructor | split; reflexivity]].
  destruct Ha as [-> | [-> | ->]]; destruct Hb as [-> | [-> | ->]];
    try contradiction; auto.
Qed.

End Tables.

(** ** The bank instances *)

Section Instances.
Context {xst : XStatus} {caps : PmCaps}.

Ltac each_instance :=
  unfold pmSramInits; repeat apply Forall_cons; try apply Forall_nil.


(** X19.  A bank instance is flagged shareable exactly when it has more
    than one requirement, and the only one that is not is the L2 bank.
    The requirements of an instance come from distinct masters, each names
    the memory of the instance, one of them is the APU's, and the declared
    count is the length of the list. *)
Theorem instances_shareable_iff_several_requirements :
  Forall (fun b =>
            (init_flags b = IsShareable <-> 1 < init_reqsCnt b) /\
            (init_flags b = NoFlags <-> init_nodeId b = L2) /\
            NoDup (map fst (init_reqs b)) /\
            Forall (fun r => snd r = init_nodeId b) (init_reqs b) /\
            In (ApuReq, init_nodeId b) (init_reqs b) /\
            init_reqsCnt b = Z.of_nat (length (init_reqs b)))
         pmSramInits.
Proof.
  each_instance.
  all: split; [cbn; split; intros H; (reflexivity || lia || discriminate H) |].
  all: split; [cbn; split; intros H; (reflexivity || discriminate H) |].
  all: split; [cbn; repeat constructor; cbn; intuition discriminate |].
  all: split; [repeat constructor |].
  all: split; [cbn; auto | reflexivity].
Qed.

(** X20.  Every bank instance starts in ON, a state for which both its
    state table and its power table have an entry, and its power table has
    one entry per state of its FSM.  The instances that use the TCM FSM
    are exactly those whose parent is the RPU power island, and the only
    instance under the FPD power domain is the L2 bank. *)
Theorem instances_fit_their_tables :
  Forall (fun b =>
            let fsm := fsm_of (init_slvFsm b) in
            init_currState b = PM_SRAM_STATE_ON /\
            0 <= init_currState b < statesCnt fsm /\
            init_powerInfoCnt b = statesCnt fsm /\
            Z.of_nat (length (states fsm)) = statesCnt fsm /\
            Z.of_nat (length (init_powerInfo b)) = init_powerInfoCnt b /\
            (init_slvFsm b = slaveTcmFsm_ref <->
               init_parent b = Some PowerIslandRpu) /\
            (init_parent b = Some PowerDomainFpd <-> init_nodeId b = L2))
         pmSramInits.
Proof.
  each_instance.
  all: cbn zeta; split; [reflexivity |].
  all: split; [split; [now vm_compute | reflexivity] |].
  all: split; [reflexivity |].
  all: split; [reflexivity |].
  all: split; [reflexivity |].
  all: split; cbn; split; intros H; (reflexivity || discriminate H).
Qed.

End Instances.

(** ** Further runs on the concrete platform *)

Lemma handler_preserves_configured_witness :
  (@XST_NO_FEATURE sample_xst <> @XST_SUCCESS sample_xst /\
   configured (sram_currState sample_tcm_ret)) /\
  configured
    (sram_currState
       (snd (result (@PmSramFsmHandler sample_xst sample_tcm_ret 7
                                       sample_regs)))).
Proof.
  assert (Hns : @XST_NO_FEATURE sample_xst <> @XST_SUCCESS sample_xst)
    by (vm_compute; discriminate).
  assert (Hc : configured (sram_currState sample_tcm_ret))
    by (right; left; reflexivity).
  split; [split; assumption |].
  exact (@handler_preserves_configured sample_xst sample_tcm_ret 7
           sample_regs Hns Hc).
Defined.

Lemma success_iff_action_succeeded_witness :
  (@XST_NO_FEATURE sample_xst <> @XST_SUCCESS sample_xst /\
   @XST_PM_INTERNAL sample_xst <> @XST_SUCCESS sample_xst) /\
  fst (result (@PmSramFsmHandler sample_xst sample_tcm_off PM_SRAM_STATE_ON
                                 sample_regs))
    = @XST_SUCCESS sample_xst.
Proof.
  assert (Hns : @XST_NO_FEATURE sample_xst <> @XST_SUCCESS sample_xst)
    by (vm_compute; discriminate).
  assert (Hpi : @XST_PM_INTERNAL sample_xst <> @XST_SUCCESS sample_xst)
    by (vm_compute; discriminate).
  split; [split; assumption |].
  apply (proj2 (@success_iff_action_succeeded sample_xst sample_tcm_off
                  PM_SRAM_STATE_ON sample_regs Hns Hpi)).
  exists Upward. split; [exact off_to_on | reflexivity].
Defined.


Lemma down_up_round_trip_witness :
  (sram_currState sample_tcm = PM_SRAM_STATE_ON /\
   (PM_SRAM_STATE_RET = PM_SRAM_STATE_RET \/
    PM_SRAM_STATE_RET = PM_SRAM_STATE_OFF) /\
   to_int (result (power_down_run sample_tcm PM_SRAM_STATE_RET sample_regs))
     = @XST_SUCCESS sample_xst /\
   to_int (result (PwrUp sample_tcm
                     (regs_after (power_down_run sample_tcm PM_SRAM_STATE_RET
                                                 sample_regs))))
     = @XST_SUCCESS sample_xst) /\
  fst (result (@PmSramRequests sample_xst sample_tcm
                 [PM_SRAM_STATE_RET; PM_SRAM_STATE_ON] sample_regs))
    = [0; 0] /\
  snd (result (@PmSramRequests sample_xst sample_tcm
                 [PM_SRAM_STATE_RET; PM_SRAM_STATE_ON] sample_regs))
    = sample_tcm.
Proof.
  assert (Hon : sram_currState sample_tcm = PM_SRAM_STATE_ON) by reflexivity.
  assert (Ht : PM_SRAM_STATE_RET = PM_SRAM_STATE_RET \/
               PM_SRAM_STATE_RET = PM_SRAM_STATE_OFF) by (left; reflexivity).
  assert (Hdn : to_int (result (power_down_run sample_tcm PM_SRAM_STATE_RET
                                  sample_regs))
                = @XST_SUCCESS sample_xst) by reflexivity.
  assert (Hup : to_int (result (PwrUp sample_tcm
                  (regs_after (power_down_run sample_tcm PM_SRAM_STATE_RET
                                              sample_regs))))
                = @XST_SUCCESS sample_xst) by reflexivity.
  pose proof (@down_up_round_trip sample_xst sample_tcm PM_SRAM_STATE_RET
                sample_regs Hon Ht Hdn Hup) as H.
  split; [repeat split; assumption |]. split; apply H.
Defined.

Lemma retention_bits_survive_unless_off_witness :
  (leaves_register (PwrDn sample_tcm_ret) (retCtrlAddr sample_tcm_ret) /\
   leaves_register (PwrUp sample_tcm_ret) (retCtrlAddr sample_tcm_ret) /\
   PM_SRAM_STATE_ON <> PM_SRAM_STATE_OFF /\
   Z.land (sample_regs (retCtrlAddr sample_tcm_ret))
          (retCtrlMask sample_tcm_ret) = retCtrlMask sample_tcm_ret) /\
  Z.land (regs_after (@PmSramFsmHandler sample_xst sample_tcm_ret
                        PM_SRAM_STATE_ON sample_regs)
                     (retCtrlAddr sample_tcm_ret))
         (retCtrlMask sample_tcm_ret) = retCtrlMask sample_tcm_ret.
Proof.
  assert (Hdn : leaves_register (PwrDn sample_tcm_ret)
                                (retCtrlAddr sample_tcm_ret))
    by (intros h; reflexivity).
  assert (Hup : leaves_register (PwrUp sample_tcm_ret)
                                (retCtrlAddr sample_tcm_ret))
    by (intros h; reflexivity).
  assert (Hoff : PM_SRAM_STATE_ON <> PM_SRAM_STATE_OFF)
    by (vm_compute; discriminate).
  assert (Hset : Z.land (sample_regs (retCtrlAddr sample_tcm_ret))
                        (retCtrlMask sample_tcm_ret)
                 = retCtrlMask sample_tcm_ret) by reflexivity.
  split; [repeat split; assumption |].
  exact (@retention_bits_survive_unless_off sample_xst sample_tcm_ret
           PM_SRAM_STATE_ON sample_regs Hdn Hup Hoff Hset).
Defined.

Lemma requests_preserve_bank_witness :
  (@XST_NO_FEATURE sample_xst <> @XST_SUCCESS sample_xst /\
   configured (sram_currState sample_tcm)) /\
  configured
    (sram_currState
       (snd (result (@PmSramRequests sample_xst sample_tcm
                       [PM_SRAM_STATE_OFF; PM_SRAM_STATE_RET; 9;
                        PM_SRAM_STATE_ON] sample_regs)))).
Proof.
  assert (Hns : @XST_NO_FEATURE sample_xst <> @XST_SUCCESS sample_xst)
    by (vm_compute; discriminate).
  assert (Hc : configured (sram_currState sample_tcm))
    by (right; right; reflexivity).
  split; [split; assumption |].
  exact (proj1 (@requests_preserve_bank sample_xst
                  [PM_SRAM_STATE_OFF; PM_SRAM_STATE_RET; 9; PM_SRAM_STATE_ON]
                  sample_tcm sample_regs Hns Hc)).
Defined.

Lemma unknown_state_is_absorbing_witness :
  (@XST_PM_INTERNAL sample_xst <> @XST_SUCCESS sample_xst /\
   ~ configured (sram_currState sample_tcm_unknown)) /\
  @PmSramRequests sample_xst sample_tcm_unknown
    [PM_SRAM_STATE_ON; PM_SRAM_STATE_OFF] sample_regs
    = (([2000; 2000], sample_tcm_unknown), sample_regs,
       [EvPmDbg 7; EvPmDbg 7]).
Proof.
  assert (Hpi : @XST_PM_INTERNAL sample_xst <> @XST_SUCCESS sample_xst)
    by (vm_compute; discriminate).
  assert (Hc : ~ configured (sram_currState sample_tcm_unknown)).
  { vm_compute. intros [H | [H | H]]; discriminate H. }
  split; [split; assumption |].
  exact (@unknown_state_is_absorbing sample_xst
           [PM_SRAM_STATE_ON; PM_SRAM_STATE_OFF] sample_tcm_unknown
           sample_regs Hpi Hc).
Defined.

Lemma l2_downward_request_asserts_reset_witness :
  (PwrDn sample_l2 = @PmL2PwrDn sample_rom /\
   transition (sram_currState sample_l2) PM_SRAM_STATE_OFF Downward) /\
  fst (result (@PmSramFsmHandler sample_xst sample_l2 PM_SRAM_STATE_OFF
                                 sample_regs)) = 1 /\
  Z.land (regs_after (@PmSramFsmHandler sample_xst sample_l2
                        PM_SRAM_STATE_OFF sample_regs)
                     (@CRF_APB_RST_FPD_APU sample_rom))
         (@CRF_APB_RST_FPD_APU_APU_L2_RESET_MASK sample_rom)
    = @CRF_APB_RST_FPD_APU_APU_L2_RESET_MASK sample_rom.
Proof.
  assert (Hb : PwrDn sample_l2 = @PmL2PwrDn sample_rom) by reflexivity.
  assert (Ht : transition (sram_currState sample_l2) PM_SRAM_STATE_OFF
                 Downward) by exact on_to_off.
  pose proof (@l2_downward_request_asserts_reset sample_xst sample_rom
                sample_l2 PM_SRAM_STATE_OFF sample_regs Hb Ht) as H.
  split; [split; assumption |]. split; apply H.
Defined.

Lemma access_only_in_on_witness :
  (~ caps_subset (@PM_CAP_ACCESS sample_caps)
                 (Z.lor (@PM_CAP_CONTEXT sample_caps)
                        (@PM_CAP_POWER sample_caps)) /\
   configured PM_SRAM_STATE_RET) /\
  ~ caps_subset (@PM_CAP_ACCESS sample_caps)
                (state_caps (@pmSramStates sample_caps) PM_SRAM_STATE_RET).
Proof.
  assert (Ha : ~ caps_subset (@PM_CAP_ACCESS sample_caps)
                 (Z.lor (@PM_CAP_CONTEXT sample_caps)
                        (@PM_CAP_POWER sample_caps)))
    by (vm_compute; discriminate).
  assert (Hc : configured PM_SRAM_STATE_RET) by (right; left; reflexivity).
  split; [split; assumption |].
  intros H.
  apply (proj1 (proj1 (@access_only_in_on sample_caps PM_SRAM_STATE_RET
                         Ha Hc))) in H.
  discriminate H.
Defined.

Lemma power_follows_state_order_witness :
  (configured PM_SRAM_STATE_RET /\ configured PM_SRAM_STATE_ON) /\
  state_power PM_SRAM_STATE_RET < state_power PM_SRAM_STATE_ON.
Proof.
  assert (H1 : configured PM_SRAM_STATE_RET) by (right; left; reflexivity).
  assert (H2 : configured PM_SRAM_STATE_ON) by (right; right; reflexivity).
  split; [split; assumption |].
  apply (proj1 (proj1 (@power_follows_state_order sample_caps
                         PM_SRAM_STATE_RET PM_SRAM_STATE_ON H1 H2))).
  reflexivity.
Defined.

Lemma transition_table_shape_witness :
  has_edge (@pmSramTransitions sample_caps) PM_SRAM_STATE_RET
           PM_SRAM_STATE_ON = true /\
  has_edge (@pmSramTransitions sample_caps) PM_SRAM_STATE_ON
           PM_SRAM_STATE_RET = true.
Proof.
  assert (He : has_edge (@pmSramTransitions sample_caps) PM_SRAM_STATE_RET
                        PM_SRAM_STATE_ON = true) by reflexivity.
  split; [exact He |].
  exact (proj1 (@transition_table_shape sample_caps PM_SRAM_STATE_RET
                  PM_SRAM_STATE_ON He)).
Defined.

Lemma transition_table_connected_witness :
  (configured PM_SRAM_STATE_RET /\ configured PM_SRAM_STATE_OFF /\
   PM_SRAM_STATE_RET <> PM_SRAM_STATE_OFF) /\
  (has_edge (@pmSramTransitions sample_caps) PM_SRAM_STATE_RET
            PM_SRAM_STATE_OFF = true \/
   (has_edge (@pmSramTransitions sample_caps) PM_SRAM_STATE_RET
             PM_SRAM_STATE_ON = true /\
    has_edge (@pmSramTransitions sample_caps) PM_SRAM_STATE_ON
             PM_SRAM_STATE_OFF = true)).
Proof.
  assert (H1 : configured PM_SRAM_STATE_RET) by (right; left; reflexivity).
  assert (H2 : configured PM_SRAM_STATE_OFF) by (left; reflexivity).
  assert (H3 : PM_SRAM_STATE_RET <> PM_SRAM_STATE_OFF)
    by (vm_compute; discriminate).
  split; [repeat split; assumption |].
  exact (proj1 (@transition_table_connected sample_xst sample_caps
                  PM_SRAM_STATE_RET PM_SRAM_STATE_OFF H1 H2 H3)).
Defined.

Lemma l2_power_down_changes_only_reset_bits_witness :
  64 <> @CRF_APB_RST_FPD_APU sample_rom /\
  regs_after (@PmL2PwrDn sample_rom sample_regs) 64
    = regs_after (@XpbrPwrDnL2Bank0Handler sample_rom sample_regs) 64.
Proof.
  assert (Ha : 64 <> @CRF_APB_RST_FPD_APU sample_rom)
    by (vm_compute; discriminate).
  split; [exact Ha |].
  exact (proj1 (@l2_power_down_changes_only_reset_bits sample_rom
                  sample_regs) 64 Ha).
Defined.

Lemma instances_shareable_iff_several_requirements_witness :
  In pmSlaveOcm0_init pmSramInits /\
  init_flags pmSlaveOcm0_init = IsShareable /\
  1 < init_reqsCnt pmSlaveOcm0_init.
Proof.
  assert (Hin : In pmSlaveOcm0_init pmSramInits) by (right; left; reflexivity).
  assert (Hf : init_flags pmSlaveOcm0_init = IsShareable) by reflexivity.
  split; [exact Hin | split; [exact Hf |]].
  exact (proj1 (proj1
           (proj1 (Forall_forall _ pmSramInits)
                  instances_shareable_iff_several_requirements
                  pmSlaveOcm0_init Hin)) Hf).
Defined.

Lemma instances_fit_their_tables_witness :
  In pmSlaveTcm0A_init pmSramInits /\
  init_slvFsm pmSlaveTcm0A_init = slaveTcmFsm_ref /\
  init_parent pmSlaveTcm0A_init = Some PowerIslandRpu.
Proof.
  assert (Hin : In pmSlaveTcm0A_init pmSramInits)
    by (do 5 right; left; reflexivity).
  assert (Hf : init_slvFsm pmSlaveTcm0A_init = slaveTcmFsm_ref)
    by reflexivity.
  split; [exact Hin | split; [exact Hf |]].
  pose proof (proj1 (Forall_forall _ pmSramInits)
                (@instances_fit_their_tables sample_xst sample_caps)
                pmSlaveTcm0A_init Hin) as H.
  cbn zeta in H.
  exact (proj1 (proj1 (proj2 (proj2 (proj2 (proj2 (proj2 H)))))) Hf).
Defined.
